(** * On-Board-Computer (komp_poklad.ino): consumption pipeline, counters and alarm

    Shallow embedding of the parts of [komp_poklad.ino] that compute fuel
    consumption, count pulses in interrupt handlers, snapshot the counters
    and drive the low-fuel buzzer.  The target is an AVR (Pro Micro,
    ATmega32U4): [int] is 16 bits, [unsigned short] is 16 bits, [long] and
    [unsigned long] are 32 bits, and [float] (like [double]) is IEEE-754
    binary32, modelled with the Standard Library's [SpecFloat] at precision
    24 and maximal exponent 128, rounding to nearest even. *)

From Stdlib Require Import ZArith QArith List Bool Lia.
From Stdlib Require Import SpecFloat.
From Stdlib Require Strings.String Strings.Ascii.
Import String.StringSyntax.
Import ListNotations.
Open Scope Z_scope.

(** ** binary32 arithmetic of the target *)
Module F32.
Definition prec : Z := 24.
Definition emax : Z := 128.
Definition t := spec_float.

Definition add (x y : t) : t := SFadd prec emax x y.
Definition sub (x y : t) : t := SFsub prec emax x y.
Definition mul (x y : t) : t := SFmul prec emax x y.
Definition div (x y : t) : t := SFdiv prec emax x y.
Definition opp (x : t) : t := SFopp x.
Definition lt (x y : t) : bool := SFltb x y.
Definition le (x y : t) : bool := SFleb x y.

(** Integer to float conversion (C's usual arithmetic conversions). *)
Definition of_Z (z : Z) : t := binary_normalize prec emax z 0 false.

(** Arduino.h: [#define abs(x) ((x)>0?(x):-(x))]. *)
Definition abs_macro (x : t) : t := if lt (of_Z 0) x then x else opp x.

Definition is_zero (x : t) : bool :=
  match x with S754_zero _ => true | _ => false end.

Definition is_nan (x : t) : bool :=
  match x with S754_nan => true | _ => false end.

(** Exact rational value of a finite float (zero for the others). *)
Definition to_Q (x : t) : Q :=
  match x with
  | S754_finite s m e =>
      let q := if 0 <=? e then inject_Z (Zpos m * 2 ^ e)
               else Qmake (Zpos m) (Z.to_pos (2 ^ (- e))) in
      if s then Qopp q else q
  | _ => 0%Q
  end.
End F32.

(** ** User-defined constants (lines 49-53 and 70) *)
Definition fuelMax : Z := 21.
Definition fuelAlarm : Z := 4.
Definition distance : Z := 500.
(** [float wheelCircum = 1.915;]: the decimal literal rounded to the nearest
    binary32, i.e. the correctly rounded quotient 1915 / 1000. *)
Definition wheelCircum : F32.t := F32.div (F32.of_Z 1915) (F32.of_Z 1000).
Definition interval : Z := 5000.

(** ** Consumption (lines 288-330) *)

Inductive cunit := L_per_100km | L_per_min.

(** What [lcd.print] shows as the number: a float, or the literal text
    ["0.00"] of the clamping branch. *)
Inductive reading := Value (v : F32.t) | Zero_text.

Record report := { r_val : reading; r_unit : cunit }.

(** One call of [consumption]: the reports written to LCD row 2, in order
    (a later one overwrites an earlier one), and the divisors of the float
    and integer divisions that the call evaluates. *)
Record cons_run := {
  reports : list report;
  fdivisors : list F32.t;
  idivisors : list Z
}.

Definition consumption (copyFlow1 copyFlow2 copyWheel : F32.t) : cons_run :=
  let copyFlow1 := F32.div copyFlow1 (F32.of_Z 450) in
  let copyFlow2 := F32.div copyFlow2 (F32.of_Z 450) in
  let diff := F32.mul (F32.of_Z 100) (F32.abs_macro (F32.sub copyFlow1 copyFlow2)) in
  let copyWheel := F32.mul copyWheel wheelCircum in
  let coeff := F32.div (F32.of_Z 100000) copyWheel in
  let consumption := F32.mul (F32.div diff copyWheel) coeff in
  let r1 := if F32.lt (F32.of_Z 0) consumption
            then {| r_val := Value consumption; r_unit := L_per_100km |}
            else {| r_val := Zero_text; r_unit := L_per_100km |} in
  let divs := [F32.of_Z 450; F32.of_Z 450; copyWheel; copyWheel] in
  if F32.le copyWheel (F32.of_Z 0) then
    (* (60 / interval): unsigned long division, then converted to float *)
    let consumption := F32.mul (F32.of_Z (Z.div 60 interval)) diff in
    {| reports := [r1; {| r_val := Value consumption; r_unit := L_per_min |}];
       fdivisors := divs; idivisors := [interval] |}
  else {| reports := [r1]; fdivisors := divs; idivisors := [] |}.

Fixpoint last_opt {A} (l : list A) : option A :=
  match l with
  | [] => None
  | [x] => Some x
  | _ :: l' => last_opt l'
  end.

(** The report left on the display once the call returns. *)
Definition reported (r : cons_run) : option report := last_opt (reports r).

Definition shows_zero (rd : reading) : bool :=
  match rd with Zero_text => true | Value v => F32.is_zero v end.

(** The spec's words for the moving case, in the same float arithmetic:
    [fuelDelta = |pulsesIn/450 - pulsesOut/450|],
    [distanceMeters = distancePulses * wheelCircumference],
    [(fuelDelta / distanceMeters) * 100000]. *)
Definition spec_per100km (pin pout pdist : F32.t) : F32.t :=
  let fuelDelta := SFabs (F32.sub (F32.div pin (F32.of_Z 450))
                                  (F32.div pout (F32.of_Z 450))) in
  let distanceMeters := F32.mul pdist wheelCircum in
  F32.mul (F32.div fuelDelta distanceMeters) (F32.of_Z 100000).

(** The spec's words for the stationary case: [fuelDelta * (60 / windowSeconds)]
    with the 5000 ms window, i.e. 5 s. *)
Definition spec_per_min (pin pout : F32.t) : F32.t :=
  let fuelDelta := SFabs (F32.sub (F32.div pin (F32.of_Z 450))
                                  (F32.div pout (F32.of_Z 450))) in
  F32.mul fuelDelta (F32.div (F32.of_Z 60) (F32.of_Z (interval / 1000))).

(** ** Exhaustive checks over a range of counter values *)
(** [all_pow2 p base k] checks [p] on every integer of [[base, base + 2^k)]. *)
Fixpoint all_pow2 (p : Z -> bool) (base : Z) (k : nat) : bool :=
  match k with
  | O => p base
  | S k' => all_pow2 p base k' && all_pow2 p (base + 2 ^ Z.of_nat k') k'
  end.

(** [fuelDelta] scaled as the code does it: [100 * abs(copyFlow1/450 - copyFlow2/450)]. *)
Definition cons_diff (copyFlow1 copyFlow2 : F32.t) : F32.t :=
  F32.mul (F32.of_Z 100)
    (F32.abs_macro (F32.sub (F32.div copyFlow1 (F32.of_Z 450))
                            (F32.div copyFlow2 (F32.of_Z 450)))).

Definition zero_or_nan (x : F32.t) : bool := F32.is_zero x || F32.is_nan x.

(** ** Helper lemmas *)

Lemma all_pow2_spec (p : Z -> bool) (k : nat) :
  forall base, all_pow2 p base k = true ->
  forall z, base <= z < base + 2 ^ Z.of_nat k -> p z = true.
Proof.
  induction k as [|k IH]; intros base H z Hz; cbn [all_pow2] in H.
  - simpl in Hz. replace z with base by lia. exact H.
  - apply andb_prop in H as [H1 H2].
    rewrite Nat2Z.inj_succ, Z.pow_succ_r in Hz by lia.
    destruct (Z_lt_le_dec z (base + 2 ^ Z.of_nat k)).
    + apply (IH base); [exact H1 | lia].
    + apply (IH _ H2). lia.
Qed.

Lemma equal_flows_diff_zero_all :
  all_pow2 (fun F => F32.is_zero (cons_diff (F32.of_Z F) (F32.of_Z F))) 0 16 = true.
Proof. vm_compute. reflexivity. Qed.

Lemma equal_flows_diff_zero (F : Z) :
  0 <= F < 65536 -> F32.is_zero (cons_diff (F32.of_Z F) (F32.of_Z F)) = true.
Proof.
  intro HF. apply (all_pow2_spec _ 16 0 equal_flows_diff_zero_all). simpl. lia.
Qed.

Lemma div_zero_l (s : bool) (y : F32.t) : zero_or_nan (F32.div (S754_zero s) y) = true.
Proof. destruct y; reflexivity. Qed.

Lemma mul_zero_or_nan (x y : F32.t) :
  zero_or_nan x = true -> zero_or_nan (F32.mul x y) = true.
Proof. destruct x, y; try reflexivity; discriminate. Qed.

Lemma not_pos_zero_or_nan (x : F32.t) :
  zero_or_nan x = true -> F32.lt (F32.of_Z 0) x = false.
Proof. destruct x; try reflexivity; discriminate. Qed.

Lemma le_zero_of_zero (s : bool) : F32.le (S754_zero s) (F32.of_Z 0) = true.
Proof. reflexivity. Qed.

Lemma consumption_unfold (a b w : F32.t) :
  consumption a b w =
  (let diff := cons_diff a b in
   let d := F32.mul w wheelCircum in
   let c := F32.mul (F32.div diff d) (F32.div (F32.of_Z 100000) d) in
   let r1 := if F32.lt (F32.of_Z 0) c
             then {| r_val := Value c; r_unit := L_per_100km |}
             else {| r_val := Zero_text; r_unit := L_per_100km |} in
   let divs := [F32.of_Z 450; F32.of_Z 450; d; d] in
   if F32.le d (F32.of_Z 0) then
     {| reports := [r1; {| r_val := Value (F32.mul (F32.of_Z (Z.div 60 interval)) diff);
                           r_unit := L_per_min |}];
        fdivisors := divs; idivisors := [interval] |}
   else {| reports := [r1]; fdivisors := divs; idivisors := [] |}).
Proof. reflexivity. Qed.

(** ** C1: the value reported for a moving vehicle *)

(** C1 (claim as stated, refuted): at the spec's own example (flow-in 900,
    flow-out 450, 261 wheel pulses) the code does not report the spec's
    [(fuelDelta / distanceMeters) * 100000]. *)
Lemma C1_counterexample :
  ~ (forall F1 F2 W : Z,
       F32.lt (F32.of_Z 0) (F32.mul (F32.of_Z W) wheelCircum) = true ->
       let s := spec_per100km (F32.of_Z F1) (F32.of_Z F2) (F32.of_Z W) in
       reported (consumption (F32.of_Z F1) (F32.of_Z F2) (F32.of_Z W)) =
       Some {| r_val := if F32.lt (F32.of_Z 0) s then Value s else Zero_text;
               r_unit := L_per_100km |}).
Proof.
  intro H. specialize (H 900 450 261 eq_refl).
  vm_compute in H. discriminate H.
Qed.

(** C1 (code at the failing input): for flow-in 900, flow-out 450 and 261
    wheel pulses the code reports about 40.03 L/100 km, i.e.
    [100 * fuelDelta * 100000 / distanceMeters^2], while the spec's formula
    gives about 200.07. *)
Theorem C1_code_at_example :
  exists v,
    reported (consumption (F32.of_Z 900) (F32.of_Z 450) (F32.of_Z 261)) =
      Some {| r_val := Value v; r_unit := L_per_100km |} /\
    (40 < F32.to_Q v < 41)%Q /\
    (200 < F32.to_Q (spec_per100km (F32.of_Z 900) (F32.of_Z 450) (F32.of_Z 261)) < 201)%Q.
Proof.
  eexists. split; [vm_compute; reflexivity|].
  split; split; vm_compute; reflexivity.
Qed.

(** ** C3: zero distance *)

(** C3 (claim as stated, refuted): for the spec's own stationary example
    (no flow, no distance) the call still divides by the zero distance, and
    its first report on row 2 is in L/100 km. *)
Lemma C3_counterexample :
  F32.is_zero (F32.mul (F32.of_Z 0) wheelCircum) = true /\
  existsb F32.is_zero (fdivisors (consumption (F32.of_Z 0) (F32.of_Z 0) (F32.of_Z 0))) = true /\
  hd_error (reports (consumption (F32.of_Z 0) (F32.of_Z 0) (F32.of_Z 0))) =
    Some {| r_val := Zero_text; r_unit := L_per_100km |}.
Proof. vm_compute. repeat split. Qed.

(** C3 (amended): when [distanceMeters = copyWheel * wheelCircum] is zero,
    the report left on row 2 is in liters per minute, but the L/100 km
    divisions by the zero distance are evaluated first (giving IEEE infinity
    or NaN, no trap); the only integer division, [60 / interval], divides by
    5000. *)
Theorem C3_stationary_unit_and_divisions (a b w : F32.t) :
  F32.is_zero (F32.mul w wheelCircum) = true ->
  option_map r_unit (reported (consumption a b w)) = Some L_per_min /\
  existsb F32.is_zero (fdivisors (consumption a b w)) = true /\
  idivisors (consumption a b w) = [interval].
Proof.
  intro Hd. rewrite consumption_unfold. cbv zeta.
  destruct (F32.mul w wheelCircum) as [s| | |] eqn:E; try discriminate Hd.
  rewrite le_zero_of_zero. simpl.
  split; [reflexivity | split; reflexivity].
Qed.

Lemma C3_stationary_witness :
  F32.is_zero (F32.mul (F32.of_Z 0) wheelCircum) = true /\
  option_map r_unit (reported (consumption (F32.of_Z 0) (F32.of_Z 0) (F32.of_Z 0))) = Some L_per_min /\
  existsb F32.is_zero (fdivisors (consumption (F32.of_Z 0) (F32.of_Z 0) (F32.of_Z 0))) = true /\
  idivisors (consumption (F32.of_Z 0) (F32.of_Z 0) (F32.of_Z 0)) = [interval].
Proof.
  split; [reflexivity|].
  apply (C3_stationary_unit_and_divisions (F32.of_Z 0) (F32.of_Z 0) (F32.of_Z 0)).
  reflexivity.
Defined.

(** ** C4: the stationary value *)

(** Every stationary call reports [(60 / interval) * diff] with the unsigned
    long quotient [60 / 5000 = 0], hence a zero (or NaN) per minute. *)
Lemma stationary_value_zero_or_nan (a b w : F32.t) :
  F32.le (F32.mul w wheelCircum) (F32.of_Z 0) = true ->
  exists v, reported (consumption a b w) = Some {| r_val := Value v; r_unit := L_per_min |} /\
            zero_or_nan v = true.
Proof.
  intro Hle. rewrite consumption_unfold. cbv zeta. rewrite Hle. simpl.
  eexists. split; [reflexivity|].
  destruct (cons_diff a b); reflexivity.
Qed.

(** C4 (code at the failing input): for flow-in 900, flow-out 450 and no
    distance the code reports 0 L/min, where the spec's
    [fuelDelta * (60 / windowSeconds)] is 1 * (60 / 5) = 12. *)
Theorem C4_code_at_stationary :
  reported (consumption (F32.of_Z 900) (F32.of_Z 450) (F32.of_Z 0)) =
    Some {| r_val := Value (S754_zero false); r_unit := L_per_min |} /\
  (F32.to_Q (spec_per_min (F32.of_Z 900) (F32.of_Z 450)) == 12)%Q.
Proof. split; vm_compute; reflexivity. Qed.

(** ** C5: equal flow totals *)

(** C5: when the two flow totals are equal (so [fuelDelta] is zero), the
    value left on row 2 reads 0.00, whatever the distance argument is. *)
Theorem C5_equal_flows_report_zero (F : Z) (w : F32.t) :
  0 <= F < 65536 ->
  exists r, reported (consumption (F32.of_Z F) (F32.of_Z F) w) = Some r /\
            shows_zero (r_val r) = true.
Proof.
  intro HF. pose proof (equal_flows_diff_zero F HF) as Hz.
  rewrite consumption_unfold. cbv zeta.
  destruct (cons_diff (F32.of_Z F) (F32.of_Z F)) as [s| | |]; try discriminate Hz.
  rewrite (not_pos_zero_or_nan _ (mul_zero_or_nan _ _ (div_zero_l s _))).
  destruct (F32.le (F32.mul w wheelCircum) (F32.of_Z 0)); simpl;
    eexists; split; reflexivity.
Qed.

Lemma C5_equal_flows_witness :
  (0 <= 900 < 65536) /\
  exists r, reported (consumption (F32.of_Z 900) (F32.of_Z 900) (F32.of_Z 261)) = Some r /\
            shows_zero (r_val r) = true.
Proof.
  split; [lia|]. apply (C5_equal_flows_report_zero 900 (F32.of_Z 261)). lia.
Defined.

(** ** Low-fuel alarm (lines 190-215) *)

(** [100 * fuelAlarm / fuelMax] in [int] arithmetic: 400 / 21 = 19. *)
Definition low_threshold : Z := 100 * fuelAlarm / fuelMax.

(** [buzz(buzzDIS)]: plays the two-beep pattern when [!buzzDIS], then sets
    [buzzDIS = 1]; result: whether the pattern played, new [buzzDIS]. *)
Definition buzz (buzzDIS : Z) : bool * Z := (buzzDIS =? 0, 1).

(** The alarm part of [fuel()] for the computed [fuelPerc]: the new
    [buzzDIS] and whether the buzzer sounded. *)
Definition fuel_alarm (buzzDIS fuelPerc : Z) : Z * bool :=
  if 80 <=? fuelPerc then (0, false)
  else if fuelPerc <=? low_threshold then
    let '(played, buzzDIS') := buzz buzzDIS in (buzzDIS', played)
  else (buzzDIS, false).

(** [buzzDIS] after evaluating a sequence of fuel percentages. *)
Definition fuel_state (buzzDIS : Z) (ps : list Z) : Z :=
  fold_left (fun d p => fst (fuel_alarm d p)) ps buzzDIS.

(** Per sample: (alarm fired, re-armed from the disarmed state). *)
Fixpoint fuel_trace (buzzDIS : Z) (ps : list Z) : list (bool * bool) :=
  match ps with
  | [] => []
  | p :: ps' =>
      let '(d', fired) := fuel_alarm buzzDIS p in
      (fired, negb (buzzDIS =? 0) && (d' =? 0)) :: fuel_trace d' ps'
  end.

(** ** Engine RPM (lines 276-284) *)

(** Conversion of a value to the 16-bit [int] of the target (wrap-around). *)
Definition to_int16 (z : Z) : Z :=
  let m := z mod 65536 in if m <? 32768 then m else m - 65536.

(** C integer division: undefined ([None]) for a zero divisor, otherwise
    truncation toward zero. *)
Definition c_div (a b : Z) : option Z :=
  if b =? 0 then None else Some (Z.quot a b).

(** [int duration = pulseIn(rpmPin, HIGH); int RPM = 60000 / duration;]
    [60000] does not fit a 16-bit [int], so it is a [long] and the division
    is a [long] division whose result is stored back into an [int]. *)
Definition rpm (pulse : Z) : option Z :=
  let duration := to_int16 pulse in
  match c_div 60000 duration with
  | Some q => Some (to_int16 q)
  | None => None
  end.

(** ** C6, C7: alarm hysteresis *)

Lemma low_threshold_19 : low_threshold = 19.
Proof. reflexivity. Qed.

Lemma fuel_state_snoc (d0 : Z) (pre : list Z) (q : Z) :
  fuel_state d0 (pre ++ [q]) = fst (fuel_alarm (fuel_state d0 pre) q).
Proof. unfold fuel_state. rewrite fold_left_app. reflexivity. Qed.

Lemma fuel_alarm_fires (d p : Z) :
  snd (fuel_alarm d p) = true <-> d = 0 /\ p <= low_threshold.
Proof.
  unfold fuel_alarm, buzz. rewrite low_threshold_19.
  destruct (80 <=? p) eqn:E1; [apply Z.leb_le in E1 | apply Z.leb_gt in E1].
  - simpl. split; [discriminate | intros [_ ?]; lia].
  - destruct (p <=? 19) eqn:E2; [apply Z.leb_le in E2 | apply Z.leb_gt in E2]; simpl.
    + rewrite Z.eqb_eq. tauto.
    + split; [discriminate | intros [_ ?]; lia].
Qed.

(** C6: on the samples 90, 50, 3, 50, 90 from the armed state the alarm
    fires once (at 3) and re-arms once (at the last 90); in general a sample
    fires exactly when the alarm is armed ([buzzDIS = 0]) and the sample is
    at or below the low threshold (19 %), so never while disarmed, and a
    firing sample always follows a sample above the threshold (a downward
    crossing). *)
Theorem C6_alarm_once_per_crossing :
  fuel_trace 0 [90; 50; 3; 50; 90] =
    [(false, false); (false, false); (true, false); (false, false); (false, true)] /\
  (forall d0 pre p,
     snd (fuel_alarm (fuel_state d0 pre) p) = true <->
     fuel_state d0 pre = 0 /\ p <= low_threshold) /\
  (forall d0 pre q p,
     snd (fuel_alarm (fuel_state d0 (pre ++ [q])) p) = true -> low_threshold < q).
Proof.
  split; [reflexivity|]. split.
  - intros d0 pre p. apply fuel_alarm_fires.
  - intros d0 pre q p H. apply fuel_alarm_fires in H as [H _].
    rewrite fuel_state_snoc in H.
    unfold fuel_alarm, buzz in H.
    destruct (80 <=? q) eqn:E1; [apply Z.leb_le in E1; rewrite low_threshold_19; lia|].
    destruct (q <=? low_threshold) eqn:E2; [simpl in H; discriminate|].
    apply Z.leb_gt in E2. exact E2.
Qed.

(** C7: an evaluation that takes the alarm from disarmed ([buzzDIS <> 0])
    to armed ([buzzDIS = 0]) always has a fuel percentage of at least 80. *)
Theorem C7_rearm_only_at_80 (d0 : Z) (pre : list Z) (p : Z) :
  fuel_state d0 pre <> 0 -> fuel_state d0 (pre ++ [p]) = 0 -> 80 <= p.
Proof.
  rewrite fuel_state_snoc. unfold fuel_alarm, buzz.
  destruct (80 <=? p) eqn:E1; [intros; apply Z.leb_le; exact E1|].
  destruct (p <=? low_threshold); simpl; intros H1 H2; [discriminate | contradiction].
Qed.

Lemma C7_rearm_witness :
  fuel_state 1 [] <> 0 /\ fuel_state 1 ([] ++ [90]) = 0 /\ 80 <= 90.
Proof.
  split; [discriminate|]. split; [reflexivity|].
  apply (C7_rearm_only_at_80 1 [] 90); [discriminate | reflexivity].
Defined.

(** ** C9: RPM division *)

(** C9: a pulse-width reading of zero reaches [60000 / duration] with a zero
    divisor: nothing in [rpm] guards it, and a reading reaches a zero
    divisor exactly when its 16-bit [int] value is zero. *)
Theorem C9_rpm_zero_divisor :
  rpm 0 = None /\ forall pulse, rpm pulse = None <-> to_int16 pulse = 0.
Proof.
  split; [reflexivity|]. intro pulse. unfold rpm, c_div.
  destruct (to_int16 pulse =? 0) eqn:E.
  - apply Z.eqb_eq in E. split; auto.
  - apply Z.eqb_neq in E. split; [discriminate | contradiction].
Qed.

(** ** Pulse counters and interrupt handlers (lines 63-65, 366-379) *)

Inductive line := Flow1 | Flow2 | Wheel.

(** The three [volatile unsigned short] counters. *)
Record counters := { countFlow1 : Z; countFlow2 : Z; countWheel : Z }.

Definition zero_counters : counters :=
  {| countFlow1 := 0; countFlow2 := 0; countWheel := 0 |}.

Definition get (l : line) (c : counters) : Z :=
  match l with
  | Flow1 => countFlow1 c
  | Flow2 => countFlow2 c
  | Wheel => countWheel c
  end.

(** [unsigned short] wrap-around. *)
Definition u16 (z : Z) : Z := z mod 65536.

(** [isrFlow1], [isrFlow2], [isrWheel]: [count++]. *)
Definition isr (l : line) (c : counters) : counters :=
  match l with
  | Flow1 => {| countFlow1 := u16 (countFlow1 c + 1); countFlow2 := countFlow2 c;
                countWheel := countWheel c |}
  | Flow2 => {| countFlow1 := countFlow1 c; countFlow2 := u16 (countFlow2 c + 1);
                countWheel := countWheel c |}
  | Wheel => {| countFlow1 := countFlow1 c; countFlow2 := countFlow2 c;
                countWheel := u16 (countWheel c + 1) |}
  end.

(** ** The critical section of [loop()] (lines 352-359), statement by statement *)

Inductive stmt :=
  | NoInterrupts | CopyFlow1 | CopyFlow2 | CopyWheel
  | ZeroFlow1 | ZeroFlow2 | ZeroWheel | Interrupts.

Definition critical_section : list stmt :=
  [NoInterrupts; CopyFlow1; CopyFlow2; CopyWheel;
   ZeroFlow1; ZeroFlow2; ZeroWheel; Interrupts].

(** Microcontroller state: the counters, the [float] copies, the global
    interrupt enable bit and the edges latched by the interrupt controller
    while interrupts are disabled. *)
Record mcu := {
  cnt : counters;
  copyFlow1 : F32.t;
  copyFlow2 : F32.t;
  copyWheel : F32.t;
  ie : bool;
  pending : list line
}.

Definition set_cnt (c : counters) (m : mcu) : mcu :=
  {| cnt := c; copyFlow1 := copyFlow1 m; copyFlow2 := copyFlow2 m;
     copyWheel := copyWheel m; ie := ie m; pending := pending m |}.

Definition set_ie (b : bool) (m : mcu) : mcu :=
  {| cnt := cnt m; copyFlow1 := copyFlow1 m; copyFlow2 := copyFlow2 m;
     copyWheel := copyWheel m; ie := b; pending := pending m |}.

Definition line_eqb (a b : line) : bool :=
  match a, b with
  | Flow1, Flow1 | Flow2, Flow2 | Wheel, Wheel => true
  | _, _ => false
  end.

(** The External Interrupt Flag Register keeps one flag per INTn line: an
    edge on a line whose flag is already set leaves the flags as they are,
    and that line's handler will run once. *)
Definition latch (ps : list line) (l : line) : list line :=
  if existsb (line_eqb l) ps then ps else ps ++ [l].

Definition defer (ls : list line) (m : mcu) : mcu :=
  {| cnt := cnt m; copyFlow1 := copyFlow1 m; copyFlow2 := copyFlow2 m;
     copyWheel := copyWheel m; ie := ie m; pending := fold_left latch ls (pending m) |}.

Definition exec_stmt (s : stmt) (m : mcu) : mcu :=
  let c := cnt m in
  match s with
  | NoInterrupts => set_ie false m
  | Interrupts => set_ie true m
  | CopyFlow1 =>
      {| cnt := c; copyFlow1 := F32.of_Z (countFlow1 c); copyFlow2 := copyFlow2 m;
         copyWheel := copyWheel m; ie := ie m; pending := pending m |}
  | CopyFlow2 =>
      {| cnt := c; copyFlow1 := copyFlow1 m; copyFlow2 := F32.of_Z (countFlow2 c);
         copyWheel := copyWheel m; ie := ie m; pending := pending m |}
  | CopyWheel =>
      {| cnt := c; copyFlow1 := copyFlow1 m; copyFlow2 := copyFlow2 m;
         copyWheel := F32.of_Z (countWheel c); ie := ie m; pending := pending m |}
  | ZeroFlow1 =>
      set_cnt {| countFlow1 := 0; countFlow2 := countFlow2 c; countWheel := countWheel c |} m
  | ZeroFlow2 =>
      set_cnt {| countFlow1 := countFlow1 c; countFlow2 := 0; countWheel := countWheel c |} m
  | ZeroWheel =>
      set_cnt {| countFlow1 := countFlow1 c; countFlow2 := countFlow2 c; countWheel := 0 |} m
  end.

Definition run_stmts (ss : list stmt) (m : mcu) : mcu :=
  fold_left (fun m s => exec_stmt s m) ss m.

(** A rising edge on a sensor line: the handler runs at once when
    interrupts are enabled; otherwise the line's flag is set. *)
Definition edge (l : line) (m : mcu) : mcu :=
  if ie m then set_cnt (isr l (cnt m)) m else defer [l] m.

(** The handlers of the lines whose flag is set run once interrupts are
    enabled, each once. *)
Definition service (m : mcu) : mcu :=
  if ie m then
    {| cnt := fold_left (fun c l => isr l c) (pending m) (cnt m);
       copyFlow1 := copyFlow1 m; copyFlow2 := copyFlow2 m;
       copyWheel := copyWheel m; ie := true; pending := [] |}
  else m.

(** Interleaving of the main program with asynchronous edges. *)
Inductive ev := Edge (l : line) | Main | Service.

Fixpoint exec (prog : list stmt) (evs : list ev) (m : mcu) : list stmt * mcu :=
  match evs with
  | [] => (prog, m)
  | Edge l :: evs' => exec prog evs' (edge l m)
  | Service :: evs' => exec prog evs' (service m)
  | Main :: evs' =>
      match prog with
      | [] => exec [] evs' m
      | s :: prog' => exec prog' evs' (exec_stmt s m)
      end
  end.

Fixpoint mains (evs : list ev) : nat :=
  match evs with
  | [] => O
  | Main :: evs' => S (mains evs')
  | _ :: evs' => mains evs'
  end.

Fixpoint edges (evs : list ev) : list line :=
  match evs with
  | [] => []
  | Edge l :: evs' => l :: edges evs'
  | _ :: evs' => edges evs'
  end.

Definition keeps_off (s : stmt) : bool :=
  match s with Interrupts => false | _ => true end.

(** ** Lemmas on the critical section *)

Lemma exec_stmt_defer (s : stmt) (ls : list line) (m : mcu) :
  exec_stmt s (defer ls m) = defer ls (exec_stmt s m).
Proof. destruct s, m; reflexivity. Qed.

Lemma run_stmts_defer (ss : list stmt) (ls : list line) (m : mcu) :
  run_stmts ss (defer ls m) = defer ls (run_stmts ss m).
Proof.
  unfold run_stmts. revert m.
  induction ss as [|s ss IH]; intro m; simpl; [reflexivity|].
  rewrite exec_stmt_defer. apply IH.
Qed.

Lemma defer_app (a b : list line) (m : mcu) :
  defer b (defer a m) = defer (a ++ b) m.
Proof. destruct m; unfold defer; simpl. rewrite fold_left_app. reflexivity. Qed.

Lemma defer_nil (m : mcu) : defer [] m = m.
Proof. destruct m; reflexivity. Qed.

Lemma ie_exec_stmt (s : stmt) (m : mcu) :
  keeps_off s = true -> ie m = false -> ie (exec_stmt s m) = false.
Proof. destruct s; simpl; intros; try discriminate; assumption || reflexivity. Qed.

Lemma ie_run_stmts (ss : list stmt) (m : mcu) :
  forallb keeps_off ss = true -> ie m = false -> ie (run_stmts ss m) = false.
Proof.
  unfold run_stmts. revert m.
  induction ss as [|s ss IH]; intros m Hk Hie; simpl in *; [assumption|].
  apply andb_prop in Hk as [Hs Hk]. apply IH; [exact Hk|].
  apply ie_exec_stmt; assumption.
Qed.

Lemma pending_run_stmts (ss : list stmt) (m : mcu) :
  pending (run_stmts ss m) = pending m.
Proof.
  unfold run_stmts. revert m.
  induction ss as [|s ss IH]; intro m; simpl; [reflexivity|].
  rewrite IH. destruct s; reflexivity.
Qed.

(** With interrupts disabled, an interleaving of edges with statements that
    do not re-enable them amounts to running the statements and latching
    the flag of every edge's line. *)
Lemma exec_deferred (evs : list ev) :
  forall prog m, ie m = false ->
  forallb keeps_off (firstn (mains evs) prog) = true ->
  exec prog evs m =
    (skipn (mains evs) prog, defer (edges evs) (run_stmts (firstn (mains evs) prog) m)).
Proof.
  induction evs as [|e evs IH]; intros prog m Hie Hk.
  - simpl. rewrite defer_nil. reflexivity.
  - destruct e as [l| |]; simpl in *.
    + unfold edge. rewrite Hie. rewrite IH by (try assumption; reflexivity).
      rewrite run_stmts_defer, defer_app. reflexivity.
    + destruct prog as [|s prog]; simpl in *.
      * rewrite IH by (try rewrite firstn_nil; reflexivity || assumption).
        rewrite firstn_nil, skipn_nil. reflexivity.
      * apply andb_prop in Hk as [Hs Hk].
        rewrite IH; [reflexivity | apply ie_exec_stmt; assumption | exact Hk].
    + unfold service. rewrite Hie. apply IH; assumption.
Qed.

Lemma exec_app (e1 e2 : list ev) :
  forall prog m, exec prog (e1 ++ e2) m =
    exec (fst (exec prog e1 m)) e2 (snd (exec prog e1 m)).
Proof.
  induction e1 as [|e e1 IH]; intros prog m; [reflexivity|].
  destruct e; simpl; [apply IH | destruct prog; apply IH | apply IH].
Qed.

Lemma mains_app (p q : list ev) : mains (p ++ q) = (mains p + mains q)%nat.
Proof. induction p as [|e p IH]; [reflexivity|]. destruct e; simpl; rewrite ?IH; reflexivity. Qed.

Lemma section_body_keeps_off (k : nat) :
  (k <= 6)%nat -> forallb keeps_off (firstn k (tl critical_section)) = true.
Proof. intro Hk. do 7 (destruct k as [|k]; [reflexivity|]). lia. Qed.

Lemma of_Z_exact_all :
  all_pow2 (fun c => Qeq_bool (F32.to_Q (F32.of_Z c)) (inject_Z c)) 0 16 = true.
Proof. vm_compute. reflexivity. Qed.

(** Every [unsigned short] value converts to [float] exactly. *)
Lemma of_Z_exact (c : Z) : 0 <= c < 65536 -> (F32.to_Q (F32.of_Z c) == inject_Z c)%Q.
Proof.
  intro Hc. apply Qeq_bool_iff.
  apply (all_pow2_spec _ 16 0 of_Z_exact_all). simpl. lia.
Qed.

(** ** C8: snapshot and reset *)

(** C8: run the critical section from a state [m] (counters in the
    [unsigned short] range), interleaved with any edges [evs] between its
    statements.  While it runs interrupts stay disabled and every edge only
    sets its line's flag (no handler touches a counter).  Right after
    [interrupts()] all three counters are zero, and the [float] copies are
    the counters held at entry, converted exactly. *)
Theorem C8_snapshot_and_reset (m : mcu) (evs : list ev) :
  mains evs = 6%nat ->
  0 <= countFlow1 (cnt m) < 65536 ->
  0 <= countFlow2 (cnt m) < 65536 ->
  0 <= countWheel (cnt m) < 65536 ->
  (forall p q, evs = p ++ q ->
     ie (snd (exec critical_section (Main :: p) m)) = false /\
     pending (snd (exec critical_section (Main :: p) m)) = fold_left latch (edges p) (pending m)) /\
  fst (exec critical_section (Main :: evs ++ [Main]) m) = [] /\
  cnt (snd (exec critical_section (Main :: evs ++ [Main]) m)) = zero_counters /\
  ie (snd (exec critical_section (Main :: evs ++ [Main]) m)) = true /\
  pending (snd (exec critical_section (Main :: evs ++ [Main]) m)) = fold_left latch (edges evs) (pending m) /\
  copyFlow1 (snd (exec critical_section (Main :: evs ++ [Main]) m)) = F32.of_Z (countFlow1 (cnt m)) /\
  copyFlow2 (snd (exec critical_section (Main :: evs ++ [Main]) m)) = F32.of_Z (countFlow2 (cnt m)) /\
  copyWheel (snd (exec critical_section (Main :: evs ++ [Main]) m)) = F32.of_Z (countWheel (cnt m)) /\
  (F32.to_Q (F32.of_Z (countFlow1 (cnt m))) == inject_Z (countFlow1 (cnt m)))%Q /\
  (F32.to_Q (F32.of_Z (countFlow2 (cnt m))) == inject_Z (countFlow2 (cnt m)))%Q /\
  (F32.to_Q (F32.of_Z (countWheel (cnt m))) == inject_Z (countWheel (cnt m)))%Q.
Proof.
  intros Hm H1 H2 H3. split.
  - intros p q ->. rewrite mains_app in Hm.
    change (exec critical_section (Main :: p) m)
      with (exec (tl critical_section) p (set_ie false m)).
    rewrite exec_deferred;
      [| reflexivity | apply section_body_keeps_off; lia].
    simpl. split.
    + apply ie_run_stmts; [apply section_body_keeps_off; lia | reflexivity].
    + rewrite pending_run_stmts. reflexivity.
  - change (exec critical_section (Main :: evs ++ [Main]) m)
      with (exec (tl critical_section) (evs ++ [Main]) (set_ie false m)).
    rewrite exec_app, (exec_deferred evs);
      [| reflexivity | rewrite Hm; reflexivity].
    rewrite Hm. destruct m as [[c1 c2 cw] f1 f2 fw b pd]; simpl in *.
    repeat split; try reflexivity; apply of_Z_exact; assumption.
Qed.

Definition mcu_example : mcu :=
  {| cnt := {| countFlow1 := 900; countFlow2 := 450; countWheel := 262 |};
     copyFlow1 := F32.of_Z 0; copyFlow2 := F32.of_Z 0; copyWheel := F32.of_Z 0;
     ie := true; pending := [] |}.

Definition evs_example : list ev :=
  [Main; Edge Flow1; Main; Main; Edge Wheel; Main; Main; Main].

Lemma C8_snapshot_witness :
  mains evs_example = 6%nat /\
  0 <= countFlow1 (cnt mcu_example) < 65536 /\
  0 <= countFlow2 (cnt mcu_example) < 65536 /\
  0 <= countWheel (cnt mcu_example) < 65536 /\
  (forall p q, evs_example = p ++ q ->
     ie (snd (exec critical_section (Main :: p) mcu_example)) = false /\
     pending (snd (exec critical_section (Main :: p) mcu_example)) = fold_left latch (edges p) (pending mcu_example)) /\
  fst (exec critical_section (Main :: evs_example ++ [Main]) mcu_example) = [] /\
  cnt (snd (exec critical_section (Main :: evs_example ++ [Main]) mcu_example)) = zero_counters /\
  ie (snd (exec critical_section (Main :: evs_example ++ [Main]) mcu_example)) = true /\
  pending (snd (exec critical_section (Main :: evs_example ++ [Main]) mcu_example)) = fold_left latch (edges evs_example) (pending mcu_example) /\
  copyFlow1 (snd (exec critical_section (Main :: evs_example ++ [Main]) mcu_example)) = F32.of_Z (countFlow1 (cnt mcu_example)) /\
  copyFlow2 (snd (exec critical_section (Main :: evs_example ++ [Main]) mcu_example)) = F32.of_Z (countFlow2 (cnt mcu_example)) /\
  copyWheel (snd (exec critical_section (Main :: evs_example ++ [Main]) mcu_example)) = F32.of_Z (countWheel (cnt mcu_example)) /\
  (F32.to_Q (F32.of_Z (countFlow1 (cnt mcu_example))) == inject_Z (countFlow1 (cnt mcu_example)))%Q /\
  (F32.to_Q (F32.of_Z (countFlow2 (cnt mcu_example))) == inject_Z (countFlow2 (cnt mcu_example)))%Q /\
  (F32.to_Q (F32.of_Z (countWheel (cnt mcu_example))) == inject_Z (countWheel (cnt mcu_example)))%Q.
Proof.
  split; [reflexivity|]. split; [simpl; lia|]. split; [simpl; lia|]. split; [simpl; lia|].
  apply (C8_snapshot_and_reset mcu_example evs_example); [reflexivity | simpl; lia ..].
Defined.

(** ** The distance-triggered part of [loop()] (lines 349-361) *)

(** [countWheel * wheelCircum >= distance]: the [unsigned short] counter and
    [distance] are converted to [float]. *)
Definition distance_reached (c : counters) : bool :=
  F32.le (F32.of_Z distance) (F32.mul (F32.of_Z (countWheel c)) wheelCircum).

(** The same guard on the value [w] the main program has read. *)
Definition dist_guard (w : Z) : bool :=
  F32.le (F32.of_Z distance) (F32.mul (F32.of_Z w) wheelCircum).

(** Where the main program is.  The guard reads the [volatile unsigned
    short] [countWheel] with interrupts enabled, as two byte loads, low byte
    first (avr-gcc: [lds] from [countWheel], then from [countWheel+1]), so a
    handler can run between them; [GuardLow lo]: the low byte [lo] is in a
    register.  [InSection k]: the guard held and the next statement is the
    [k]-th of [critical_section]; past the last one [consumption] is called
    with the three copies.  [lastRead += interval] and the timed tasks of
    lines 336-347 touch no counter and are left out. *)
Inductive lpc := AtGuard | GuardLow (lo : Z) | InSection (k : nat).

(** Loop state: the microcontroller, the program point, the arguments of the
    [consumption] calls so far (oldest first), and three counters of
    instrumentation that the program does not have: per line, the handler
    runs since the counter was last reset ([served]), the handler runs of
    each earlier window, closed by [noInterrupts()] ([windows]), and the
    edges that found their line's flag already set ([dropped]). *)
Record loop_state := {
  mc : mcu;
  pc : lpc;
  calls : list (F32.t * F32.t * F32.t);
  served : counters;
  windows : list counters;
  dropped : counters
}.

(** An edge on a sensor line (its handler, a few instructions long, runs to
    completion before the next edge), or one step of the main program. *)
Inductive levent := Pulse (l : line) | Step.

Definition add_line (l : line) (n : Z) (c : counters) : counters :=
  match l with
  | Flow1 => {| countFlow1 := countFlow1 c + n; countFlow2 := countFlow2 c;
                countWheel := countWheel c |}
  | Flow2 => {| countFlow1 := countFlow1 c; countFlow2 := countFlow2 c + n;
                countWheel := countWheel c |}
  | Wheel => {| countFlow1 := countFlow1 c; countFlow2 := countFlow2 c;
                countWheel := countWheel c + n |}
  end.

Definition set_pc (p : lpc) (s : loop_state) : loop_state :=
  {| mc := mc s; pc := p; calls := calls s; served := served s;
     windows := windows s; dropped := dropped s |}.

Definition loop_step (s : loop_state) (e : levent) : loop_state :=
  let m := mc s in
  match e with
  | Pulse l =>
      {| mc := edge l m; pc := pc s; calls := calls s;
         served := if ie m then add_line l 1 (served s) else served s;
         windows := windows s;
         dropped := if negb (ie m) && existsb (line_eqb l) (pending m)
                    then add_line l 1 (dropped s) else dropped s |}
  | Step =>
      match pc s with
      | AtGuard => set_pc (GuardLow (Z.land (countWheel (cnt m)) 255)) s
      | GuardLow lo =>
          let w := lo + Z.shiftl (Z.shiftr (countWheel (cnt m)) 8) 8 in
          set_pc (if dist_guard w then InSection 0 else AtGuard) s
      | InSection k =>
          match nth_error critical_section k with
          | Some NoInterrupts =>
              {| mc := exec_stmt NoInterrupts m; pc := InSection (S k);
                 calls := calls s; served := zero_counters;
                 windows := windows s ++ [served s]; dropped := dropped s |}
          | Some Interrupts =>
              let m' := exec_stmt Interrupts m in
              {| mc := service m'; pc := InSection (S k); calls := calls s;
                 served := fold_left (fun c l => add_line l 1 c) (pending m') (served s);
                 windows := windows s; dropped := dropped s |}
          | Some st =>
              {| mc := exec_stmt st m; pc := InSection (S k); calls := calls s;
                 served := served s; windows := windows s; dropped := dropped s |}
          | None =>
              {| mc := m; pc := AtGuard;
                 calls := calls s ++ [(copyFlow1 m, copyFlow2 m, copyWheel m)];
                 served := served s; windows := windows s; dropped := dropped s |}
          end
      end
  end.

(** Power-on: counters and copies are 0, interrupts are enabled. *)
Definition loop_init : loop_state :=
  {| mc := {| cnt := zero_counters; copyFlow1 := F32.of_Z 0; copyFlow2 := F32.of_Z 0;
              copyWheel := F32.of_Z 0; ie := true; pending := [] |};
     pc := AtGuard; calls := []; served := zero_counters; windows := [];
     dropped := zero_counters |}.

Definition loop_run (tr : list levent) : loop_state := fold_left loop_step tr loop_init.




(** The argument of a [consumption] call, and the copy in the [mcu], for a line. *)
Definition arg (l : line) (a : F32.t * F32.t * F32.t) : F32.t :=
  match l, a with
  | Flow1, (f1, _, _) => f1
  | Flow2, (_, f2, _) => f2
  | Wheel, (_, _, w) => w
  end.

Definition copy (l : line) (m : mcu) : F32.t :=
  match l with Flow1 => copyFlow1 m | Flow2 => copyFlow2 m | Wheel => copyWheel m end.

Definition pulses (l : line) (n : positive) : list levent :=
  Pos.iter (cons (Pulse l)) [] n.

Definition steps (n : nat) : list levent := repeat Step n.

(** No wheel handler runs while [countWheel] holds 65535. *)
Fixpoint no_wheel_wrap_from (s : loop_state) (tr : list levent) : bool :=
  match tr with
  | [] => true
  | e :: tr' =>
      match e with
      | Pulse Wheel => negb (ie (mc s) && (countWheel (cnt (mc s)) =? 65535))
      | _ => true
      end && no_wheel_wrap_from (loop_step s e) tr'
  end.

Definition no_wheel_wrap (tr : list levent) : bool := no_wheel_wrap_from loop_init tr.

(** ** Lemmas on the loop model *)

Lemma get_zero (l : line) : get l zero_counters = 0.
Proof. destruct l; reflexivity. Qed.

Lemma get_isr (l l' : line) (c : counters) :
  get l (isr l' c) = if line_eqb l l' then u16 (get l c + 1) else get l c.
Proof. destruct l, l'; reflexivity. Qed.



Lemma u16_range (x : Z) : 0 <= u16 x < 65536.
Proof. unfold u16. apply Z.mod_pos_bound. lia. Qed.










Lemma nth_error_section_end (n : nat) :
  (8 <= n)%nat -> nth_error critical_section n = None.
Proof. intro H. apply nth_error_None. simpl. exact H. Qed.


(** *** Accounting of the edges *)







(** *** What each call receives *)





Lemma nth_error_snoc_lt {A} (xs : list A) (x : A) (i : nat) (y : A) :
  nth_error xs i = Some y -> nth_error (xs ++ [x]) i = Some y.
Proof.
  intro H. rewrite nth_error_app1; [exact H|].
  apply nth_error_Some. rewrite H. discriminate.
Qed.



Lemma get_edge_on (l l' : line) (m : mcu) :
  ie m = true -> get l (cnt (edge l' m)) = get l (isr l' (cnt m)).
Proof. intro H. unfold edge. rewrite H. destruct m; reflexivity. Qed.

Lemma get_edge_off (l l' : line) (m : mcu) :
  ie m = false -> get l (cnt (edge l' m)) = get l (cnt m).
Proof. intro H. unfold edge. rewrite H. destruct m; reflexivity. Qed.

Lemma edge_fields (l : line) (m : mcu) :
  ie (edge l m) = ie m /\ copy Flow1 (edge l m) = copy Flow1 m /\
  copy Flow2 (edge l m) = copy Flow2 m /\ copy Wheel (edge l m) = copy Wheel m /\
  (ie m = true -> pending (edge l m) = pending m).
Proof.
  unfold edge. destruct m as [c f1 f2 fw b ps]. simpl.
  destruct b; repeat split; try reflexivity; intro H; discriminate.
Qed.

Lemma copy_edge (l l' : line) (m : mcu) : copy l (edge l' m) = copy l m.
Proof. destruct (edge_fields l' m) as [_ [H1 [H2 [H3 _]]]]. destruct l; assumption. Qed.





(** *** The wheel count of each call *)

Lemma guard_all : all_pow2 (fun w => Bool.eqb (dist_guard w) (262 <=? w)) 0 16 = true.
Proof. vm_compute. reflexivity. Qed.

(** A torn read can only pass the guard when the high byte it read is at
    least 1, i.e. once [countWheel] has reached 256. *)
Lemma guard_high_byte (lo c : Z) :
  0 <= lo < 256 -> 0 <= c < 65536 ->
  dist_guard (lo + Z.shiftl (Z.shiftr c 8) 8) = true -> 256 <= c.
Proof.
  intros Hlo Hc Hg.
  rewrite Z.shiftr_div_pow2, Z.shiftl_mul_pow2 in Hg by lia.
  change (2 ^ 8) with 256 in Hg.
  assert (Hr : 0 <= lo + c / 256 * 256 < 65536) by (Z.div_mod_to_equations; lia).
  pose proof (all_pow2_spec _ 16 0 guard_all (lo + c / 256 * 256) ltac:(simpl; lia)) as E.
  cbv beta in E. rewrite Hg in E. apply Bool.eqb_prop in E.
  symmetry in E. apply Z.leb_le in E. Z.div_mod_to_equations. lia.
Qed.

Definition cnt_ok (m : mcu) : Prop := forall l, 0 <= get l (cnt m) < 65536.

Lemma cnt_ok_isr (l : line) (c : counters) :
  (forall l', 0 <= get l' c < 65536) -> forall l', 0 <= get l' (isr l c) < 65536.
Proof.
  intros H l'. rewrite get_isr. destruct (line_eqb l' l); [apply u16_range | apply H].
Qed.

Lemma cnt_ok_edge (l : line) (m : mcu) : cnt_ok m -> cnt_ok (edge l m).
Proof.
  intros H l'. unfold edge. destruct (ie m); destruct m; simpl in *;
    [apply cnt_ok_isr, H | apply H].
Qed.

Lemma cnt_ok_exec_stmt (st : stmt) (m : mcu) : cnt_ok m -> cnt_ok (exec_stmt st m).
Proof.
  intros H l. pose proof (H l) as Hl. destruct st, m, l; simpl in *; lia.
Qed.

Lemma cnt_ok_service (m : mcu) : cnt_ok m -> cnt_ok (service m).
Proof.
  unfold service, cnt_ok. destruct (ie m); [|auto]. simpl.
  generalize (cnt m). induction (pending m) as [|l ps IH]; intros c H; simpl; [exact H|].
  apply IH, cnt_ok_isr, H.
Qed.

(** Invariant for the wheel line while its counter does not wrap: a torn
    guard read lets the body run from 256 wheel pulses on, the count only
    grows until the copy, and every call so far got a count of 256..65535. *)
Definition wheel_inv (s : loop_state) : Prop :=
  cnt_ok (mc s) /\
  (forall a, In a (calls s) -> exists n, 256 <= n < 65536 /\ arg Wheel a = F32.of_Z n) /\
  match pc s with
  | AtGuard => True
  | GuardLow lo => 0 <= lo < 256
  | InSection O => 256 <= countWheel (cnt (mc s))
  | InSection (S k) =>
      ((k <= 6)%nat -> ie (mc s) = false) /\
      ((k < 3)%nat -> 256 <= countWheel (cnt (mc s))) /\
      ((3 <= k)%nat -> exists n, 256 <= n < 65536 /\ copyWheel (mc s) = F32.of_Z n)
  end.

Lemma wheel_inv_init : wheel_inv loop_init.
Proof.
  split; [intro l; simpl; rewrite get_zero; lia|]. split; [intros a []|]. exact I.
Qed.

Lemma wheel_inv_step (s : loop_state) (e : levent) :
  wheel_inv s ->
  match e with
  | Pulse Wheel => negb (ie (mc s) && (countWheel (cnt (mc s)) =? 65535)) = true
  | _ => True
  end ->
  wheel_inv (loop_step s e).
Proof.
  destruct s as [m p cl sv ws dr]. intros [Hok [Hcl Hpc]] He.
  cbn [mc pc calls] in Hok, Hcl, Hpc, He.
  destruct e as [l'|].
  - (* an edge *)
    split; [apply cnt_ok_edge, Hok|]. split; [exact Hcl|]. cbn [loop_step pc mc].
    destruct (edge_fields l' m) as [Hie' [_ [_ [Hcw _]]]].
    destruct p as [|lo|[|k]]; try exact Hpc.
    + (* before noInterrupts() the count may grow, not wrap *)
      destruct (ie m) eqn:Hie.
      * change (countWheel (cnt (edge l' m))) with (get Wheel (cnt (edge l' m))).
        rewrite get_edge_on, get_isr by exact Hie.
        destruct l'; simpl; try exact Hpc.
        pose proof (Hok Wheel) as Hw. simpl in Hw.
        apply negb_true_iff, Z.eqb_neq in He.
        unfold u16. rewrite Z.mod_small by lia. lia.
      * change (countWheel (cnt (edge l' m))) with (get Wheel (cnt (edge l' m))).
        rewrite get_edge_off by exact Hie. exact Hpc.
    + destruct Hpc as [Hoff [Hlt Hcp]]. rewrite Hie'.
      split; [exact Hoff|]. split; [|change (copyWheel (edge l' m)) with (copy Wheel (edge l' m));
                                      rewrite copy_edge; exact Hcp].
      intro Hk. pose proof (Hoff ltac:(lia)) as Hie.
      change (countWheel (cnt (edge l' m))) with (get Wheel (cnt (edge l' m))).
      rewrite get_edge_off by exact Hie. apply Hlt, Hk.
  - (* a step of the main program *)
    cbn [loop_step mc pc]. destruct p as [|lo|[|k]].
    + (* low byte *)
      split; [exact Hok|]. split; [exact Hcl|]. cbn [set_pc pc].
      change 255 with (Z.ones 8). rewrite Z.land_ones by lia. apply Z.mod_pos_bound. lia.
    + (* high byte and the comparison *)
      destruct (dist_guard _) eqn:Hg; (split; [exact Hok|]); (split; [exact Hcl|]);
        cbn [set_pc pc mc]; [|exact I].
      apply (guard_high_byte lo); [exact Hpc | apply (Hok Wheel) | exact Hg].
    + (* noInterrupts() *)
      cbn [nth_error critical_section]. split; [apply cnt_ok_exec_stmt, Hok|].
      split; [exact Hcl|]. cbn [pc mc].
      split; [reflexivity|]. split; [intros _; destruct m; exact Hpc|]. intro; lia.
    + destruct Hpc as [Hoff [Hlt Hcp]].
      destruct k as [|[|[|[|[|[|[|k]]]]]]].
      1-6:
        cbn [nth_error critical_section]; split; [apply cnt_ok_exec_stmt, Hok|];
        split; [exact Hcl|]; cbn [pc mc];
        split; [intros _; destruct m; apply Hoff; lia|];
        split; [intro Hk; first [lia | destruct m; simpl in *; apply Hlt; lia]|];
        intro Hk; first
          [ lia
          | destruct m as [c f1 f2 fw b ps]; simpl in *;
            first [apply Hcp; lia | exists (countWheel c); split; [|reflexivity];
                                     split; [apply Hlt; lia | apply (Hok Wheel)]]].
      * (* interrupts() *)
        cbn [nth_error critical_section]. split.
        { apply cnt_ok_service, cnt_ok_exec_stmt, Hok. }
        split; [exact Hcl|]. cbn [pc mc].
        split; [intro; lia|]. split; [intro; lia|].
        intros _. destruct m. apply Hcp. lia.
      * (* the call *)
        rewrite nth_error_section_end by lia.
        split; [exact Hok|]. cbn [pc calls]. split; [|exact I].
        intros a Ha. apply in_app_or in Ha as [Ha | [<- | []]]; [apply Hcl, Ha|].
        apply Hcp. lia.
Qed.

Lemma wheel_inv_run (tr : list levent) :
  forall s, wheel_inv s -> no_wheel_wrap_from s tr = true ->
  wheel_inv (fold_left loop_step tr s).
Proof.
  induction tr as [|e tr IH]; intros s Hi Hn; [exact Hi|].
  cbn [no_wheel_wrap_from] in Hn. apply andb_prop in Hn as [He Hn].
  cbn [fold_left]. apply IH; [|exact Hn].
  apply wheel_inv_step; [exact Hi|].
  destruct e as [[| |]|]; trivial.
Qed.

(** Every nonzero wheel count gives a positive distance in [float]. *)
Definition moving_fact (w : Z) : bool :=
  let d := F32.mul (F32.of_Z w) wheelCircum in
  (w =? 0) || (F32.lt (F32.of_Z 0) d && negb (F32.le d (F32.of_Z 0))).

Lemma moving_all : all_pow2 moving_fact 0 16 = true.
Proof. vm_compute. reflexivity. Qed.

(** A call with a nonzero wheel count takes the L/100 km path only, and
    every float divisor it uses is positive. *)
Lemma consumption_moving (a b : F32.t) (w : Z) :
  1 <= w < 65536 ->
  forallb (F32.lt (F32.of_Z 0)) (fdivisors (consumption a b (F32.of_Z w))) = true /\
  idivisors (consumption a b (F32.of_Z w)) = [].
Proof.
  intro Hw. pose proof (all_pow2_spec _ 16 0 moving_all w ltac:(simpl; lia)) as F.
  unfold moving_fact in F. replace (w =? 0) with false in F by (symmetry; apply Z.eqb_neq; lia).
  cbn [orb] in F. apply andb_prop in F as [Hlt Hle]. apply negb_true_iff in Hle.
  rewrite consumption_unfold. cbv zeta. rewrite Hle.
  cbn [fdivisors idivisors forallb]. rewrite Hlt. split; reflexivity.
Qed.

(** ** C2: conservation of pulses across snapshots *)





(** ** C10: the distance argument of the calls made by [loop()] *)

(** C10 (claim as stated, refuted): the guard reads 65535 wheel pulses, one
    more pulse arrives before [noInterrupts()] and wraps [countWheel] to 0,
    so [loop()] calls [consumption] with a zero distance, which takes the
    stationary branch after dividing by zero. *)
Lemma C10_counterexample :
  calls (loop_run (pulses Wheel 65535 ++ [Step; Step; Pulse Wheel] ++ steps 9)) =
    [(F32.of_Z 0, F32.of_Z 0, F32.of_Z 0)] /\
  existsb F32.is_zero (fdivisors (consumption (F32.of_Z 0) (F32.of_Z 0) (F32.of_Z 0))) = true /\
  idivisors (consumption (F32.of_Z 0) (F32.of_Z 0) (F32.of_Z 0)) = [interval].
Proof. split; [|split]; vm_compute; reflexivity. Qed.

(** C10 (amended): as long as no wheel handler runs while [countWheel]
    holds 65535, every call of [consumption] made by [loop()] gets a wheel
    count of 256..65535 (not 262: the guard's two byte loads can be torn),
    so it takes only the L/100 km path and all its float divisors are
    positive. *)
Theorem C10_loop_calls_positive_distance (tr : list levent) :
  no_wheel_wrap tr = true ->
  forall a, In a (calls (loop_run tr)) ->
    exists n, 256 <= n < 65536 /\ arg Wheel a = F32.of_Z n /\
    forallb (F32.lt (F32.of_Z 0))
      (fdivisors (consumption (arg Flow1 a) (arg Flow2 a) (arg Wheel a))) = true /\
    idivisors (consumption (arg Flow1 a) (arg Flow2 a) (arg Wheel a)) = [].
Proof.
  intros Hn a Ha.
  destruct (wheel_inv_run tr loop_init wheel_inv_init Hn) as [_ [Hcl _]].
  destruct (Hcl a Ha) as [n [Hr He]]. exists n.
  split; [exact Hr|]. split; [exact He|]. rewrite He.
  apply consumption_moving. lia.
Qed.

Lemma C10_loop_calls_witness :
  no_wheel_wrap (pulses Wheel 262 ++ steps 11) = true /\
  In (F32.of_Z 0, F32.of_Z 0, F32.of_Z 262) (calls (loop_run (pulses Wheel 262 ++ steps 11))) /\
  exists n, 256 <= n < 65536 /\ F32.of_Z 262 = F32.of_Z n /\
    forallb (F32.lt (F32.of_Z 0))
      (fdivisors (consumption (F32.of_Z 0) (F32.of_Z 0) (F32.of_Z 262))) = true /\
    idivisors (consumption (F32.of_Z 0) (F32.of_Z 0) (F32.of_Z 262)) = [].
Proof.
  assert (Hn : no_wheel_wrap (pulses Wheel 262 ++ steps 11) = true)
    by (vm_compute; reflexivity).
  assert (Hi : In (F32.of_Z 0, F32.of_Z 0, F32.of_Z 262)
                 (calls (loop_run (pulses Wheel 262 ++ steps 11))))
    by (vm_compute; left; reflexivity).
  split; [exact Hn|]. split; [exact Hi|].
  exact (C10_loop_calls_positive_distance _ Hn _ Hi).
Defined.

(** A torn guard read: with 255 wheel pulses counted, the guard loads the
    low byte 0xFF, a wheel pulse moves the counter to 0x100, and the guard
    then loads the high byte 0x01.  It compares 0x1FF = 511 pulses, so the
    body runs and [consumption] receives 256 wheel pulses, a count the guard
    rejects when read whole (256 * 1.915 m < 500 m). *)
Theorem guard_torn_read :
  calls (loop_run (pulses Wheel 255 ++ [Step; Pulse Wheel] ++ steps 10)) =
    [(F32.of_Z 0, F32.of_Z 0, F32.of_Z 256)] /\
  dist_guard 511 = true /\
  distance_reached {| countFlow1 := 0; countFlow2 := 0; countWheel := 256 |} = false.
Proof. repeat split; vm_compute; reflexivity. Qed.

(** * Display output, sensor conversions and task timing *)

(** String literals (LCD text) are read in [string_scope]. *)
Open Scope string_scope.

(** ** Conversions of the target *)

(** Float to integer conversion (C truncates toward zero); the code only
    converts finite values in range. *)
Definition to_Z_trunc (x : F32.t) : Z :=
  match x with
  | S754_finite s m e =>
      let a := if 0 <=? e then Zpos m * 2 ^ e else Z.div (Zpos m) (2 ^ (- e)) in
      if s then - a else a
  | _ => 0
  end.

Definition is_inf (x : F32.t) : bool :=
  match x with S754_infinity _ => true | _ => false end.

Fixpoint zlist_eqb (l1 l2 : list Z) : bool :=
  match l1, l2 with
  | [], [] => true
  | x :: l1', y :: l2' => (x =? y) && zlist_eqb l1' l2'
  | _, _ => false
  end.

(** Integer ranges [[a, a + n)], for finite checks. *)
Definition zrange (a n : Z) : list Z := map (fun k => a + Z.of_nat k) (seq 0 (Z.to_nat n)).

(** ** The LCD (HD44780, 20x4, driven through LiquidCrystal_I2C)

    The display functions only position the cursor and send characters, so
    each one is embedded as the list of commands it sends.  The controller
    keeps an address counter and a character RAM; rows 0, 1, 2, 3 start at
    addresses 0x00, 0x40, 0x14, 0x54, and in two-line mode the counter
    steps from 0x27 to 0x40 and from 0x67 to 0x00. *)
Inductive cmd := SetCursor (col row : Z) | Write (c : Z).

Record lcd := { ac : Z; ram : Z -> Z }.

Definition row_offset (row : Z) : Z :=
  if row =? 0 then 0 else if row =? 1 then 64 else if row =? 2 then 20 else 84.

Definition next_ac (a : Z) : Z :=
  if a =? 39 then 64 else if a =? 103 then 0 else (a + 1) mod 128.

Definition exec_cmd (d : lcd) (c : cmd) : lcd :=
  match c with
  | SetCursor col row => {| ac := (col + row_offset row) mod 128; ram := ram d |}
  | Write ch => {| ac := next_ac (ac d); ram := fun x => if x =? ac d then ch else ram d x |}
  end.

Definition run_lcd (cs : list cmd) (d : lcd) : lcd := fold_left exec_cmd cs d.

(** The character shown at column [col] of row [row]. *)
Definition cell (col row : Z) (d : lcd) : Z := ram d (col + row_offset row).

(** The (address, character) pairs written by a command list, from
    address counter [a]. *)
Fixpoint writes_from (a : Z) (cs : list cmd) : list (Z * Z) :=
  match cs with
  | [] => []
  | SetCursor col row :: cs' => writes_from ((col + row_offset row) mod 128) cs'
  | Write ch :: cs' => (a, ch) :: writes_from (next_ac a) cs'
  end.

Fixpoint lookup_from (x : Z) (ws : list (Z * Z)) (o : option Z) : option Z :=
  match ws with
  | [] => o
  | (a, c) :: ws' => lookup_from x ws' (if a =? x then Some c else o)
  end.

(** The last character written to address [x], if any. *)
Definition lookup_write (x : Z) (ws : list (Z * Z)) : option Z := lookup_from x ws None.

(** *** Arduino [Print] *)

(** Character codes of a string literal. *)
Definition chars (s : String.string) : list Z :=
  map (fun a => Z.of_N (Ascii.N_of_ascii a)) (String.list_ascii_of_string s).

Definition print_str (s : String.string) : list cmd := map Write (chars s).

(** [Print::printNumber] in base 10 (digits of a nonnegative number). *)
Fixpoint udigits (k : nat) (n : Z) (acc : list Z) : list Z :=
  match k with
  | O => acc
  | S k' =>
      let acc' := (48 + n mod 10) :: acc in
      if n <? 10 then acc' else udigits k' (n / 10) acc'
  end.

(** [Print::print(long)]: a minus sign, then the digits. *)
Definition dec (n : Z) : list Z :=
  if n <? 0 then 45 :: udigits 20 (- n) [] else udigits 20 n [].

Definition print_int (n : Z) : list cmd := map Write (dec n).

(** [Print::printFloat(number, digits)] of the Arduino AVR core. *)
Fixpoint rounding_for (k : nat) (r : F32.t) : F32.t :=
  match k with O => r | S k' => rounding_for k' (F32.div r (F32.of_Z 10)) end.

Fixpoint frac_digits (k : nat) (r : F32.t) : list Z :=
  match k with
  | O => []
  | S k' =>
      let r := F32.mul r (F32.of_Z 10) in
      let toPrint := to_Z_trunc r in
      dec toPrint ++ frac_digits k' (F32.sub r (F32.of_Z toPrint))
  end.

Definition float_text (digits : nat) (number : F32.t) : list Z :=
  if F32.is_nan number then chars "nan"
  else if is_inf number then chars "inf"
  else if F32.lt (F32.of_Z 4294967040) number then chars "ovf"
  else if F32.lt number (F32.of_Z (-4294967040)) then chars "ovf"
  else
    let '(sign, number) :=
      if F32.lt number (F32.of_Z 0) then ([45], F32.opp number) else ([], number) in
    let number := F32.add number
                    (rounding_for digits (F32.div (F32.of_Z 1) (F32.of_Z 2))) in
    let int_part := to_Z_trunc number in
    let remainder := F32.sub number (F32.of_Z int_part) in
    sign ++ dec int_part ++ (if (0 <? digits)%nat then [46] else [])
         ++ frac_digits digits remainder.

(** [lcd.print(float)]: two decimals. *)
Definition print_float (x : F32.t) : list cmd := map Write (float_text 2 x).

(** ** [fuel()] (lines 205-260) *)

(** [5.0 / 1023.0], folded by the compiler in [double] (= binary32). *)
Definition volt_coeff : F32.t := F32.div (F32.of_Z 5) (F32.of_Z 1023).

(** [int fuelPerc = (analog * (5.0 / 1023.0) * 300) / 5.0;] *)
Definition fuelPerc_of (analog : Z) : Z :=
  to_Z_trunc (F32.div (F32.mul (F32.mul (F32.of_Z analog) volt_coeff) (F32.of_Z 300))
                      (F32.of_Z 5)).

(** Full bars: [for (char i = 0; i <= 10; i++)], leaving at the first [i]
    failing [i < fuelPerc/10 && fuelPerc > 5]. *)
Fixpoint full_bars (k : nat) (i fuelPerc : Z) : list cmd :=
  match k with
  | O => []
  | S k' =>
      if (i <? Z.quot fuelPerc 10) && (5 <? fuelPerc)
      then Write 1 :: full_bars k' (i + 1) fuelPerc
      else []
  end.

(** Blanks: [for (byte i = (fuelPerc/10) + cleanup; i <= 10; i++)]. *)
Fixpoint clean_bars (k : nat) (i : Z) : list cmd :=
  match k with
  | O => []
  | S k' => if i <=? 10 then SetCursor i 1 :: print_str " " ++ clean_bars k' (i + 1) else []
  end.

(** Everything [fuel()] sends to the display for a given [fuelPerc]. *)
Definition fuel_cmds (fuelPerc : Z) : list cmd :=
  let '(half, cleanup) :=
    if 5 <=? Z.rem fuelPerc 10 then ([Write 0], 1) else ([], 0) in
  let pct :=
    if fuelPerc =? 100 then [SetCursor 16 1]
    else if fuelPerc <=? 9 then SetCursor 16 1 :: print_str "   " ++ [SetCursor 18 1]
    else SetCursor 16 1 :: print_str "  " ++ [SetCursor 17 1] in
  SetCursor 0 1 :: full_bars 11 0 fuelPerc ++ half
    ++ clean_bars 11 ((Z.quot fuelPerc 10 + cleanup) mod 256)
    ++ [SetCursor 10 1; Write 2]
    ++ pct ++ print_int fuelPerc ++ print_str "%".

(** [fuel()] on an analog reading: new [buzzDIS], whether the buzzer
    sounded, and the display commands. *)
Definition fuel (buzzDIS analog : Z) : Z * bool * list cmd :=
  let fuelPerc := fuelPerc_of analog in
  let '(buzzDIS', sounded) := fuel_alarm buzzDIS fuelPerc in
  (buzzDIS', sounded, fuel_cmds fuelPerc).

(** ** [voltage()] (lines 264-272) *)

(** The value printed: [abs((float)voltage / 10)] with
    [voltage = analog * (5.0 / 1023.0) * 30]. *)
Definition voltage_shown (analog : Z) : F32.t :=
  let voltage := F32.mul (F32.mul (F32.of_Z analog) volt_coeff) (F32.of_Z 30) in
  F32.abs_macro (F32.div voltage (F32.of_Z 10)).

Definition voltage_cmds (analog : Z) : list cmd :=
  SetCursor 7 0 :: print_str "     " ++ SetCursor 7 0 :: print_float (voltage_shown analog)
    ++ print_str " V".

(** ** [temp()] (lines 109-152) *)

(** [int16_t raw = (data[1] << 8) | data[0];] for the scratchpad bytes
    [data[0] = lo] and [data[1] = hi]. *)
Definition temp_raw (lo hi : Z) : Z := to_int16 (Z.lor (Z.shiftl hi 8) lo).

(** [raw = raw & ~1; celsius = raw / 16;] *)
Definition celsius_of (lo hi : Z) : Z := Z.quot (Z.land (temp_raw lo hi) (Z.lnot 1)) 16.

(** Lines 143-151: printing [celsius]. *)
Definition temp_show (celsius : Z) : list cmd :=
  SetCursor 0 0 :: print_str "      " ++ SetCursor 0 0 :: print_int celsius
    ++ [Write 223] ++ print_str "C"
    ++ (if celsius <? 100 then print_str " " else []).

(** [crc_ok] is the outcome of [OneWire::crc8(addr, 7) == addr[7]]; a
    mismatch returns before anything is printed. *)
Definition temp_cmds (crc_ok : bool) (lo hi : Z) : list cmd :=
  if negb crc_ok then [] else temp_show (celsius_of lo hi).

(** ** [rtc()] (lines 156-186) *)

(** The BCD conversions, stored back into a [byte]. *)
Definition bcd_minutes (minutes : Z) : Z :=
  (Z.shiftr (Z.land minutes 240) 4 * 10 + Z.land minutes 15) mod 256.

Definition bcd_hours (hours : Z) : Z :=
  (Z.shiftr (Z.land hours 32) 5 * 20 + Z.shiftr (Z.land hours 16) 4 * 10
   + Z.land hours 15 + 1) mod 256.

(** One pass of the [while (Wire.available())] body after the reads. *)
Definition rtc_show (minutes hours : Z) : list cmd :=
  let minutes := bcd_minutes minutes in
  let hours := bcd_hours hours in
  SetCursor 15 0 ::
    (if 10 <=? hours then print_int hours else print_str "0" ++ print_int hours)
    ++ print_str ":"
    ++ (if minutes <? 10 then print_str "0" ++ print_int minutes else print_int minutes).

(** The bytes received after [Wire.requestFrom(0x68, 3)]; [Wire.read()]
    with nothing left returns [-1], stored as the byte 255. *)
Fixpoint rtc_cmds (received : list Z) : list cmd :=
  match received with
  | [] => []
  | [_] => rtc_show 255 255
  | [_; minutes] => rtc_show minutes 255
  | _ :: minutes :: hours :: rest => rtc_show minutes hours ++ rtc_cmds rest
  end.

(** Two-digit BCD encoding of the DS3231 registers (24-hour mode). *)
Definition to_bcd (n : Z) : Z := (n / 10) * 16 + n mod 10.

(** ** [rpm()] (lines 276-284): [None] when the division is undefined. *)
Definition rpm_show (RPM : Z) : list cmd :=
  SetCursor 15 2 :: print_str "     " ++ SetCursor 15 2 :: print_int RPM.

Definition rpm_cmds (pulse : Z) : option (list cmd) := option_map rpm_show (rpm pulse).

(** ** Task timing in [loop()] (lines 336-347) *)

(** [time_now - t] in [unsigned long]. *)
Definition elapsed (time_now t : Z) : Z := (time_now - t) mod 2 ^ 32.

(** One pass: whether the 1 s group ([temp], [voltage], [rpm]) and the 15 s
    group ([rtc], [fuel]) run, and the new [temper_time] and [rtc_time]. *)
Definition loop_timers (time_now temper_time rtc_time : Z) : bool * bool * Z * Z :=
  let fast := 1000 <=? elapsed time_now temper_time in
  let slow := 15000 <=? elapsed time_now rtc_time in
  (fast, slow, if fast then time_now else temper_time, if slow then time_now else rtc_time).

(** *** Reading the display back *)

(** Columns [a, a + n) of a row. *)
Fixpoint row_text (row a : Z) (n : nat) (d : lcd) : list Z :=
  match n with
  | O => []
  | S n' => cell a row d :: row_text row (a + 1) n' d
  end.

(** Fields of the screen: (row, first column, width). *)
Definition in_field (fs : list (Z * Z * Z)) (col row : Z) : bool :=
  existsb (fun f => let '(r, a, n) := f in (row =? r) && (a <=? col) && (col <? a + n)) fs.

Definition pad_left (n : nat) (l : list Z) : list Z := repeat 32 (n - length l) ++ l.
Definition pad_right (n : nat) (l : list Z) : list Z := l ++ repeat 32 (n - length l).

(** Finite checks on command lists that start by positioning the cursor. *)
Definition starts_set (cs : list cmd) : bool :=
  match cs with SetCursor _ _ :: _ => true | _ => false end.

Definition addr_ok (fs : list (Z * Z * Z)) (x : Z) : bool :=
  existsb (fun r => let c := x - row_offset r in (0 <=? c) && (c <? 20) && in_field fs c r)
          [0; 1; 2; 3].

(** Every character the commands write lands in one of the fields. *)
Definition only_in (cs : list cmd) (fs : list (Z * Z * Z)) : bool :=
  starts_set cs && forallb (addr_ok fs) (map fst (writes_from 0 cs)).

Fixpoint shows_from (ws : list (Z * Z)) (row c : Z) (txt : list Z) : bool :=
  match txt with
  | [] => true
  | t :: txt' =>
      match lookup_write (c + row_offset row) ws with
      | Some v => (v =? t) && shows_from ws row (c + 1) txt'
      | None => false
      end
  end.

(** The commands leave [txt] at column [a] of [row], whatever was there. *)
Definition shows (cs : list cmd) (row a : Z) (txt : list Z) : bool :=
  starts_set cs && shows_from (writes_from 0 cs) row a txt.

(** *** Expected texts *)

(** The fuel bar: [fuelPerc / 10] full cells, a half cell after them when
    the last digit is at least 5, blanks, and the end mark at column 10. *)
Definition bar_text (fuelPerc : Z) : list Z :=
  map (fun i => if i <? fuelPerc / 10 then 1
                else if (i =? fuelPerc / 10) && (5 <=? fuelPerc mod 10) then 0 else 32)
      (zrange 0 10) ++ [2].

(** A number of hundredths as [Print] shows it with two decimals. *)
Definition centi_text (q : Z) : list Z :=
  dec (q / 100) ++ [46; 48 + q mod 100 / 10; 48 + q mod 10].

(** [15 * analog / 1023] volts in hundredths, rounded half up. *)
Definition volt_centi (analog : Z) : Z := (3000 * analog + 1023) / 2046.

Definition two_digits (n : Z) : list Z := [48 + n / 10; 48 + n mod 10].

(** The screen after [setup()] runs [rtc(); temp(); voltage(); fuel(); rpm();]. *)
Definition setup_cmds (received : list Z) (crc_ok : bool) (lo hi analogV analogF pulse : Z)
    : option (list cmd) :=
  match rpm_cmds pulse with
  | Some rpm_out =>
      Some (rtc_cmds received ++ temp_cmds crc_ok lo hi ++ voltage_cmds analogV
            ++ fuel_cmds (fuelPerc_of analogF) ++ rpm_out)
  | None => None
  end.

(** ** Lemmas on the display model *)

Lemma forallb_zrange (f : Z -> bool) (a n : Z) :
  forallb f (zrange a n) = true -> forall z, a <= z < a + n -> f z = true.
Proof.
  intros H z Hz. rewrite forallb_forall in H. apply H. unfold zrange.
  apply in_map_iff. exists (Z.to_nat (z - a)). split; [lia|].
  apply in_seq. lia.
Qed.

Lemma lookup_from_acc (x : Z) (ws : list (Z * Z)) (o : option Z) :
  lookup_from x ws o = match lookup_from x ws None with None => o | s => s end.
Proof.
  revert o; induction ws as [|[a c] ws IH]; intro o; simpl; [reflexivity|].
  rewrite (IH (if a =? x then Some c else o)), (IH (if a =? x then Some c else None)).
  destruct (lookup_from x ws None); [reflexivity|]. destruct (a =? x); reflexivity.
Qed.

Definition opt_or (o : option Z) (dflt : Z) : Z := match o with Some c => c | None => dflt end.

Lemma run_lcd_ram (cs : list cmd) (d : lcd) (x : Z) :
  ram (run_lcd cs d) x = opt_or (lookup_write x (writes_from (ac d) cs)) (ram d x).
Proof.
  unfold lookup_write, run_lcd. revert d.
  induction cs as [|[col row|ch] cs IH]; intro d; cbn [fold_left writes_from lookup_from].
  - reflexivity.
  - rewrite IH. reflexivity.
  - rewrite IH. cbn [exec_cmd ac ram].
    rewrite (lookup_from_acc x _ (if ac d =? x then Some ch else None)).
    destruct (lookup_from x (writes_from (next_ac (ac d)) cs) None); [reflexivity|].
    destruct (Z.eqb_spec x (ac d)), (Z.eqb_spec (ac d) x); cbn [opt_or]; congruence.
Qed.

Lemma run_lcd_app (p q : list cmd) (d : lcd) : run_lcd (p ++ q) d = run_lcd q (run_lcd p d).
Proof. unfold run_lcd. apply fold_left_app. Qed.

Lemma writes_from_start (cs : list cmd) (a : Z) :
  starts_set cs = true -> writes_from a cs = writes_from 0 cs.
Proof. destruct cs as [|[col row|ch] cs]; simpl; congruence. Qed.

Lemma shows_from_spec (cs : list cmd) (d : lcd) (row : Z) (txt : list Z) :
  forall a, shows_from (writes_from (ac d) cs) row a txt = true ->
  row_text row a (length txt) (run_lcd cs d) = txt.
Proof.
  induction txt as [|t txt IH]; intros a H; [reflexivity|].
  cbn [shows_from] in H. cbn [length row_text].
  destruct (lookup_write (a + row_offset row) (writes_from (ac d) cs)) as [v|] eqn:E;
    [|discriminate].
  apply andb_prop in H as [Hv Ht]. apply Z.eqb_eq in Hv. subst v.
  rewrite (IH _ Ht). unfold cell. rewrite run_lcd_ram, E. reflexivity.
Qed.

Lemma shows_spec (cs : list cmd) (row a : Z) (txt : list Z) (n : nat) (d : lcd) :
  shows cs row a txt = true -> length txt = n -> row_text row a n (run_lcd cs d) = txt.
Proof.
  unfold shows. intros H <-. apply andb_prop in H as [Hs H].
  apply shows_from_spec. rewrite (writes_from_start _ _ Hs). exact H.
Qed.

Lemma lookup_from_none (x : Z) (ws : list (Z * Z)) :
  (forall w, In w ws -> fst w <> x) -> lookup_from x ws None = None.
Proof.
  induction ws as [|[a c] ws IH]; intro H; [reflexivity|]. cbn [lookup_from].
  replace (a =? x) with false.
  - apply IH. intros w Hw. apply H. right. exact Hw.
  - symmetry. apply Z.eqb_neq. apply (H (a, c)). left. reflexivity.
Qed.

Lemma row_offset_cases (r : Z) :
  row_offset r = 0 /\ r = 0 \/ row_offset r = 64 /\ r = 1 \/
  row_offset r = 20 /\ r = 2 \/ row_offset r = 84 /\ r <> 0 /\ r <> 1 /\ r <> 2.
Proof.
  unfold row_offset.
  destruct (r =? 0) eqn:E0; [apply Z.eqb_eq in E0; auto | apply Z.eqb_neq in E0].
  destruct (r =? 1) eqn:E1; [apply Z.eqb_eq in E1; auto | apply Z.eqb_neq in E1].
  destruct (r =? 2) eqn:E2; [apply Z.eqb_eq in E2; auto | apply Z.eqb_neq in E2].
  auto 10.
Qed.

Lemma addr_unique (c r col row : Z) :
  0 <= c < 20 -> 0 <= col < 20 -> In r [0; 1; 2; 3] -> 0 <= row < 4 ->
  c + row_offset r = col + row_offset row -> c = col /\ r = row.
Proof.
  intros Hc Hcol Hr Hrow E.
  destruct (row_offset_cases r) as [[H1 H2]|[[H1 H2]|[[H1 H2]|[H1 H2]]]];
  destruct (row_offset_cases row) as [[H3 H4]|[[H3 H4]|[[H3 H4]|[H3 H4]]]];
  rewrite H1, H3 in E; simpl in Hr; lia.
Qed.

Lemma only_in_spec (cs : list cmd) (fs : list (Z * Z * Z)) (d : lcd) (col row : Z) :
  only_in cs fs = true -> 0 <= col < 20 -> 0 <= row < 4 -> in_field fs col row = false ->
  cell col row (run_lcd cs d) = cell col row d.
Proof.
  unfold only_in, cell. intros H Hcol Hrow Hf. apply andb_prop in H as [Hs H].
  rewrite run_lcd_ram, (writes_from_start _ _ Hs). unfold lookup_write.
  rewrite lookup_from_none; [reflexivity|]. intros w Hw Ew.
  rewrite forallb_forall in H. specialize (H (fst w) (in_map fst _ _ Hw)).
  unfold addr_ok in H. apply existsb_exists in H as [r [Hr Hok]].
  apply andb_prop in Hok as [Hok Hin]. apply andb_prop in Hok as [H0 H20].
  apply Z.leb_le in H0. apply Z.ltb_lt in H20.
  destruct (addr_unique (fst w - row_offset r) r col row) as [Ec Er];
    [lia | lia | exact Hr | lia | lia |].
  rewrite Ec, Er, Hf in Hin. discriminate.
Qed.

Lemma row_text_snoc (row a : Z) (n : nat) (d : lcd) :
  row_text row a (S n) d = row_text row a n d ++ [cell (a + Z.of_nat n) row d].
Proof.
  revert a; induction n as [|n IH]; intro a.
  - simpl. rewrite Z.add_0_r. reflexivity.
  - change (row_text row a (S (S n)) d) with (cell a row d :: row_text row (a + 1) (S n) d).
    rewrite IH. replace (a + Z.of_nat (S n)) with (a + 1 + Z.of_nat n) by lia. reflexivity.
Qed.

(** ** Finite checks *)

Lemma fuelPerc_all :
  forallb (fun a => fuelPerc_of a =? 300 * a / 1023) (zrange 0 1024) = true.
Proof. vm_compute. reflexivity. Qed.

Lemma fuelPerc_formula (a : Z) : 0 <= a <= 1023 -> fuelPerc_of a = 300 * a / 1023.
Proof. intro H. apply Z.eqb_eq, (forallb_zrange _ _ _ fuelPerc_all). lia. Qed.

Lemma fuel_thresholds_all :
  forallb (fun a => Bool.eqb (80 <=? 300 * a / 1023) (273 <=? a)
                    && Bool.eqb (300 * a / 1023 <=? 19) (a <=? 68)) (zrange 0 1024) = true.
Proof. vm_compute. reflexivity. Qed.

Lemma fuel_bar_all :
  forallb (fun p => shows (fuel_cmds p) 1 0 (bar_text p)) (zrange 0 301) = true.
Proof. vm_compute. reflexivity. Qed.

Definition fuel_fields : list (Z * Z * Z) := [(1, 0, 11); (1, 16, 4)].

Lemma fuel_pct_all :
  forallb (fun p => shows (fuel_cmds p) 1 16 (pad_left 4 (dec p ++ chars "%"))
                    && Nat.eqb (length (pad_left 4 (dec p ++ chars "%"))) 4
                    && only_in (fuel_cmds p) fuel_fields) (zrange 0 101) = true.
Proof. vm_compute. reflexivity. Qed.

Lemma fuel_overrange_all :
  forallb (fun a => shows (fuel_cmds (fuelPerc_of a)) 3 0 (chars "%")) (zrange 345 679) = true.
Proof. vm_compute. reflexivity. Qed.

Definition volt_check (a : Z) : bool :=
  let t := centi_text (volt_centi a) ++ chars " V" in
  zlist_eqb (float_text 2 (voltage_shown a)) (centi_text (volt_centi a))
  && shows (voltage_cmds a) 0 7 t
  && only_in (voltage_cmds a) [(0, 7, Z.of_nat (length t))]
  && only_in (voltage_cmds a) [(0, 7, 7)]
  && Nat.eqb (length t) (if a <=? 681 then 6 else 7).

Lemma volt_all : forallb volt_check (zrange 0 1024) = true.
Proof. vm_compute. reflexivity. Qed.

Lemma zlist_eqb_eq (l1 l2 : list Z) : zlist_eqb l1 l2 = true -> l1 = l2.
Proof.
  revert l2; induction l1 as [|x l1 IH]; intros [|y l2] H; try discriminate; [reflexivity|].
  cbn [zlist_eqb] in H. apply andb_prop in H as [H1 H2].
  apply Z.eqb_eq in H1. subst y. f_equal. apply IH. exact H2.
Qed.

Lemma volt_ok (a : Z) :
  0 <= a <= 1023 ->
  let t := centi_text (volt_centi a) ++ chars " V" in
  float_text 2 (voltage_shown a) = centi_text (volt_centi a) /\
  shows (voltage_cmds a) 0 7 t = true /\
  only_in (voltage_cmds a) [(0, 7, Z.of_nat (length t))] = true /\
  only_in (voltage_cmds a) [(0, 7, 7)] = true /\
  length t = (if a <=? 681 then 6%nat else 7%nat).
Proof.
  intros Ha t. pose proof (forallb_zrange _ _ _ volt_all a ltac:(lia)) as H.
  unfold volt_check in H. fold t in H.
  repeat match goal with H : _ && _ = true |- _ => apply andb_prop in H as [? ?] end.
  repeat split; auto using zlist_eqb_eq. apply Nat.eqb_eq. assumption.
Qed.

(** Decoding of the scratchpad bytes [z mod 256] and [z / 256]. *)
Definition temp_check (z : Z) : bool :=
  let lo := z mod 256 in
  let hi := z / 256 in
  let raw := temp_raw lo hi in
  let c := celsius_of lo hi in
  (raw =? (if hi <? 128 then 256 * hi + lo else 256 * hi + lo - 65536))
  && (raw - 15 <=? 16 * c) && (16 * c <=? raw + 14) && (c <=? 2047)
  && implb (0 <=? raw) (c =? raw / 16)
  && implb (raw mod 16 =? 0) (16 * c =? raw).

Lemma temp_all : all_pow2 temp_check 0 16 = true.
Proof. vm_compute. reflexivity. Qed.

Lemma temp_ok (lo hi : Z) :
  0 <= lo < 256 -> 0 <= hi < 256 -> temp_check (256 * hi + lo) = true.
Proof.
  intros Hlo Hhi. apply (all_pow2_spec _ 16 0 temp_all).
  change (0 + 2 ^ Z.of_nat 16) with 65536. lia.
Qed.

(** The printed temperature for [celsius] from -99 to 2047. *)
Definition temp_show_check (c : Z) : bool :=
  let t := pad_right 6 (dec c ++ [223] ++ chars "C") in
  shows (temp_show c) 0 0 t && Nat.eqb (length t) 6 && only_in (temp_show c) [(0, 0, 6)].

Lemma temp_show_all : forallb temp_show_check (zrange (-99) 2147) = true.
Proof. vm_compute. reflexivity. Qed.

Lemma bytes_split (lo hi : Z) :
  0 <= lo < 256 -> (256 * hi + lo) mod 256 = lo /\ (256 * hi + lo) / 256 = hi.
Proof. intro H. split; Z.div_mod_to_equations; lia. Qed.

Lemma celsius_le (lo hi : Z) : 0 <= lo < 256 -> 0 <= hi < 256 -> celsius_of lo hi <= 2047.
Proof.
  intros Hlo Hhi. pose proof (temp_ok lo hi Hlo Hhi) as C. unfold temp_check in C.
  destruct (bytes_split lo hi Hlo) as [E1 E2]. rewrite E1, E2 in C.
  repeat (apply andb_prop in C as [C ?]).
  apply Z.leb_le. assumption.
Qed.

Lemma temp_show_ok (lo hi : Z) :
  0 <= lo < 256 -> 0 <= hi < 256 -> -99 <= celsius_of lo hi ->
  let t := pad_right 6 (dec (celsius_of lo hi) ++ [223] ++ chars "C") in
  shows (temp_cmds true lo hi) 0 0 t = true /\ length t = 6%nat /\
  only_in (temp_cmds true lo hi) [(0, 0, 6)] = true.
Proof.
  intros Hlo Hhi Hc t. pose proof (celsius_le lo hi Hlo Hhi) as Hu.
  pose proof (forallb_zrange _ _ _ temp_show_all (celsius_of lo hi) ltac:(lia)) as C.
  unfold temp_show_check in C. fold t in C.
  apply andb_prop in C as [C O]. apply andb_prop in C as [S L]. apply Nat.eqb_eq in L.
  split; [exact S|]. split; [exact L | exact O].
Qed.

Lemma to_int16_small (z : Z) : -32768 <= z < 32768 -> to_int16 z = z.
Proof.
  intro H. unfold to_int16.
  destruct (Z.ltb_spec (z mod 65536) 32768); Z.div_mod_to_equations; lia.
Qed.

Lemma to_int16_mod (z : Z) : to_int16 (z mod 65536) = to_int16 z.
Proof. unfold to_int16. rewrite Z.mod_mod by lia. reflexivity. Qed.

Lemma rpm_mod (z : Z) : rpm (z mod 65536) = rpm z.
Proof. unfold rpm. rewrite to_int16_mod. reflexivity. Qed.

(** [rpm()] for a pulse width whose 16-bit value is that of [z]. *)
Definition rpm_check (z : Z) : bool :=
  match rpm z with
  | Some r =>
      if (-6 <=? to_int16 z) && (to_int16 z <=? -2) then shows (rpm_show r) 1 0 (chars "0")
      else shows (rpm_show r) 2 15 (pad_right 5 (dec r))
           && Nat.eqb (length (pad_right 5 (dec r))) 5
           && only_in (rpm_show r) [(2, 15, 5)]
  | None => true
  end.

Lemma rpm_all : all_pow2 rpm_check 0 16 = true.
Proof. vm_compute. reflexivity. Qed.

Lemma rpm_check_ok (z : Z) : rpm_check z = true.
Proof.
  assert (E : rpm_check z = rpm_check (z mod 65536)).
  { unfold rpm_check. rewrite rpm_mod, to_int16_mod. reflexivity. }
  rewrite E. apply (all_pow2_spec _ 16 0 rpm_all). change (0 + 2 ^ Z.of_nat 16) with 65536.
  pose proof (Z.mod_pos_bound z 65536). lia.
Qed.

Lemma rpm_in_range (w : Z) : 2 <= w <= 32767 -> rpm w = Some (60000 / w).
Proof.
  intro H. unfold rpm, c_div. rewrite to_int16_small by lia.
  replace (w =? 0) with false by (symmetry; apply Z.eqb_neq; lia).
  rewrite Z.quot_div_nonneg by lia. rewrite to_int16_small; [reflexivity|].
  split; [apply Z.le_trans with 0; [lia | apply Z.div_pos; lia]|].
  apply Z.lt_le_trans with 30001; [|lia]. apply Z.le_lt_trans with 30000; [|lia].
  apply Z.div_le_upper_bound; lia.
Qed.

(** The clock for a valid DS3231 time (24-hour mode), as [z = 60 * h + m]. *)
Definition rtc_check (z : Z) : bool :=
  let m := z mod 60 in
  let h := z / 60 in
  (bcd_minutes (to_bcd m) =? m) && (bcd_hours (to_bcd h) =? h + 1)
  && shows (rtc_cmds [0; to_bcd m; to_bcd h]) 0 15 (two_digits (h + 1) ++ chars ":" ++ two_digits m)
  && only_in (rtc_cmds [0; to_bcd m; to_bcd h]) [(0, 15, 5)].

Lemma rtc_all : forallb rtc_check (zrange 0 1440) = true.
Proof. vm_compute. reflexivity. Qed.

Lemma rtc_ok (m h : Z) : 0 <= m <= 59 -> 0 <= h <= 23 -> rtc_check (60 * h + m) = true.
Proof. intros Hm Hh. apply (forallb_zrange _ _ _ rtc_all). lia. Qed.

Lemma rtc_cmds_seconds (s m h : Z) : rtc_cmds [s; m; h] = rtc_cmds [0; m; h].
Proof. reflexivity. Qed.

(** A text survives commands that write outside its cells. *)
Definition clear_of (fs : list (Z * Z * Z)) (row a : Z) (n : nat) : bool :=
  forallb (fun i => negb (in_field fs (a + i) row)) (zrange 0 (Z.of_nat n)).

Lemma row_text_frame (cs : list cmd) (fs : list (Z * Z * Z)) (row a : Z) (n : nat) (d : lcd) :
  only_in cs fs = true -> clear_of fs row a n = true ->
  0 <= a -> a + Z.of_nat n <= 20 -> 0 <= row < 4 ->
  row_text row a n (run_lcd cs d) = row_text row a n d.
Proof.
  intros Ho Hc Ha Hn Hr. unfold clear_of in Hc. revert a Ha Hn Hc.
  induction n as [|n IH]; intros a Ha Hn Hc; [reflexivity|].
  cbn [row_text]. f_equal.
  - apply (only_in_spec cs fs); [exact Ho | lia | exact Hr |].
    pose proof (forallb_zrange _ _ _ Hc 0 ltac:(lia)) as H. cbn beta in H.
    rewrite Z.add_0_r in H. apply negb_true_iff in H. exact H.
  - apply IH; [lia | lia |]. apply forallb_forall. intros i Hi.
    unfold zrange in Hi. apply in_map_iff in Hi as [k [Hk Hin]]. apply in_seq in Hin.
    subst i. replace (a + 1 + (0 + Z.of_nat k)) with (a + (0 + Z.of_nat (S k))) by lia.
    apply (forallb_zrange _ _ _ Hc). lia.
Qed.

(** ** Extra properties of the display and sensor code *)

(** A display state used to instantiate the statements. *)
Definition blank_lcd : lcd := {| ac := 0; ram := fun _ => 32 |}.

(** Fuel percentage: for every ADC reading 0..1023, the float expression of
    line 207 truncates to exactly [300 * analog / 1023] (integer division):
    no reading loses a unit to float rounding, and a full-scale reading
    gives 300. *)
Theorem fuel_percentage_exact (analog : Z) :
  0 <= analog <= 1023 -> fuelPerc_of analog = 300 * analog / 1023.
Proof. intro H. apply Z.eqb_eq, (forallb_zrange _ _ _ fuelPerc_all). lia. Qed.

Lemma fuel_percentage_exact_witness :
  0 <= 1023 <= 1023 /\ fuelPerc_of 1023 = 300 * 1023 / 1023.
Proof. split; [lia|]. apply fuel_percentage_exact. lia. Defined.

(** Alarm thresholds in ADC units: a [fuel()] call sounds the buzzer exactly
    when it is armed and the reading is at most 68, and leaves it armed
    exactly when the reading is at least 273, or it was armed and the
    reading is above 68. *)
Theorem fuel_alarm_adc_thresholds (buzzDIS analog : Z) :
  0 <= analog <= 1023 ->
  let '(buzzDIS', sounded, _) := fuel buzzDIS analog in
  (sounded = true <-> buzzDIS = 0 /\ analog <= 68) /\
  (buzzDIS' = 0 <-> 273 <= analog \/ (buzzDIS = 0 /\ 68 < analog)).
Proof.
  intro H. unfold fuel. rewrite (fuelPerc_formula analog ltac:(lia)).
  pose proof (forallb_zrange _ _ _ fuel_thresholds_all analog ltac:(lia)) as T.
  cbv beta in T. apply andb_prop in T as [T1 T2].
  apply Bool.eqb_prop in T1. apply Bool.eqb_prop in T2.
  unfold fuel_alarm, buzz. rewrite low_threshold_19, T1, T2.
  destruct (Z.leb_spec 273 analog); [|destruct (Z.leb_spec analog 68)]; cbn beta iota;
    rewrite ?Z.eqb_eq; intuition (try lia; try discriminate).
Qed.

Lemma fuel_alarm_adc_thresholds_witness :
  0 <= 50 <= 1023 /\
  let '(buzzDIS', sounded, _) := fuel 0 50 in
  (sounded = true <-> 0 = 0 /\ 50 <= 68) /\
  (buzzDIS' = 0 <-> 273 <= 50 \/ (0 = 0 /\ 68 < 50)).
Proof. split; [lia|]. apply (fuel_alarm_adc_thresholds 0 50). lia. Defined.

(** Fuel bar: for every percentage the code can compute (0..300), columns
    0-9 of row 1 show [fuelPerc / 10] full cells, then a half cell when the
    last digit is at least 5, then blanks, and column 10 shows the end mark,
    whatever the display showed before. *)
Theorem fuel_bar_cells (fuelPerc : Z) (d : lcd) :
  0 <= fuelPerc <= 300 -> row_text 1 0 11 (run_lcd (fuel_cmds fuelPerc) d) = bar_text fuelPerc.
Proof.
  intro H. apply shows_spec; [apply (forallb_zrange _ _ _ fuel_bar_all); lia|].
  unfold bar_text. rewrite length_app, length_map. reflexivity.
Qed.

Lemma fuel_bar_cells_witness :
  0 <= 57 <= 300 /\ row_text 1 0 11 (run_lcd (fuel_cmds 57) blank_lcd) = bar_text 57.
Proof. split; [lia|]. apply fuel_bar_cells. lia. Defined.

(** Percentage field: for 0..100 %, columns 16-19 of row 1 show the
    percentage right-aligned and followed by "%", and [fuel()] changes no
    cell outside columns 0-10 and 16-19 of row 1. *)
Theorem fuel_percentage_right_aligned (fuelPerc : Z) (d : lcd) :
  0 <= fuelPerc <= 100 ->
  row_text 1 16 4 (run_lcd (fuel_cmds fuelPerc) d) = pad_left 4 (dec fuelPerc ++ chars "%") /\
  (forall col row, 0 <= col < 20 -> 0 <= row < 4 -> in_field fuel_fields col row = false ->
   cell col row (run_lcd (fuel_cmds fuelPerc) d) = cell col row d).
Proof.
  intro H. pose proof (forallb_zrange _ _ _ fuel_pct_all fuelPerc ltac:(lia)) as C.
  cbv beta in C. apply andb_prop in C as [C C3]. apply andb_prop in C as [C1 C2].
  split.
  - apply shows_spec; [exact C1 | apply Nat.eqb_eq; exact C2].
  - intros col row Hc Hr Hf. apply (only_in_spec _ fuel_fields); assumption.
Qed.

Lemma fuel_percentage_right_aligned_witness :
  0 <= 7 <= 100 /\
  row_text 1 16 4 (run_lcd (fuel_cmds 7) blank_lcd) = pad_left 4 (dec 7 ++ chars "%") /\
  (forall col row, 0 <= col < 20 -> 0 <= row < 4 -> in_field fuel_fields col row = false ->
   cell col row (run_lcd (fuel_cmds 7) blank_lcd) = cell col row blank_lcd).
Proof. split; [lia|]. apply fuel_percentage_right_aligned. lia. Defined.

(** Over-range readings: for ADC readings 345..1023 the percentage exceeds
    100, its three digits end at column 19 of row 1, and the "%" sign is
    written by the controller's address counter at column 0 of row 3. *)
Theorem fuel_overrange_percent_on_row3 (analog : Z) (d : lcd) :
  345 <= analog <= 1023 ->
  100 < fuelPerc_of analog /\ cell 0 3 (run_lcd (fuel_cmds (fuelPerc_of analog)) d) = 37.
Proof.
  intro H. split.
  - rewrite (fuelPerc_formula analog ltac:(lia)).
    Z.div_mod_to_equations. lia.
  - pose proof (shows_spec _ 3 0 (chars "%") 1 d
                  (forallb_zrange _ _ _ fuel_overrange_all analog ltac:(lia)) eq_refl) as E.
    cbn [row_text] in E. injection E as E. exact E.
Qed.

Lemma fuel_overrange_percent_on_row3_witness :
  345 <= 1023 <= 1023 /\
  100 < fuelPerc_of 1023 /\ cell 0 3 (run_lcd (fuel_cmds (fuelPerc_of 1023)) blank_lcd) = 37.
Proof. split; [lia|]. apply fuel_overrange_percent_on_row3. lia. Defined.

(** Voltage text: for every ADC reading 0..1023, [voltage()] prints
    [15 * analog / 1023] volts rounded half up to two decimals (the
    reading 0 gives -0.0, printed "0.00"). *)
Theorem voltage_text_rounded (analog : Z) :
  0 <= analog <= 1023 ->
  float_text 2 (voltage_shown analog) = centi_text (volt_centi analog).
Proof. intro H. apply (volt_ok analog H). Qed.

Lemma voltage_text_rounded_witness :
  0 <= 0 <= 1023 /\ float_text 2 (voltage_shown 0) = centi_text (volt_centi 0).
Proof. split; [lia|]. apply voltage_text_rounded. lia. Defined.

(** Voltage field: the text is the rounded value followed by " V", from
    column 7 of row 0; it is 6 characters for readings up to 681 (below
    10 V) and 7 from 682 on, and no other cell changes. *)
Theorem voltage_field_width (analog : Z) (d : lcd) :
  0 <= analog <= 1023 ->
  let t := centi_text (volt_centi analog) ++ chars " V" in
  row_text 0 7 (length t) (run_lcd (voltage_cmds analog) d) = t /\
  length t = (if analog <=? 681 then 6%nat else 7%nat) /\
  (forall col row, 0 <= col < 20 -> 0 <= row < 4 ->
   in_field [(0, 7, Z.of_nat (length t))] col row = false ->
   cell col row (run_lcd (voltage_cmds analog) d) = cell col row d).
Proof.
  intros H t. destruct (volt_ok analog H) as (_ & S & O & _ & L). fold t in S, O, L.
  split; [apply shows_spec; [exact S | reflexivity]|]. split; [exact L|].
  intros col row Hc Hr Hf. apply (only_in_spec _ _ _ _ _ O Hc Hr Hf).
Qed.

Lemma voltage_field_width_witness :
  0 <= 700 <= 1023 /\
  let t := centi_text (volt_centi 700) ++ chars " V" in
  row_text 0 7 (length t) (run_lcd (voltage_cmds 700) blank_lcd) = t /\
  length t = (if 700 <=? 681 then 6%nat else 7%nat) /\
  (forall col row, 0 <= col < 20 -> 0 <= row < 4 ->
   in_field [(0, 7, Z.of_nat (length t))] col row = false ->
   cell col row (run_lcd (voltage_cmds 700) blank_lcd) = cell col row blank_lcd).
Proof. split; [lia|]. apply voltage_field_width. lia. Defined.

(** Stale unit: [voltage()] clears only 5 cells, so when a reading of 10 V
    or more (ADC 682..1023) is followed by one below 10 V (0..681), the
    last "V" of the longer text stays at column 13: row 0 reads
    "x.xx VV" from column 7. *)
Theorem voltage_stale_unit_below_10V (a1 a2 : Z) (d : lcd) :
  682 <= a1 <= 1023 -> 0 <= a2 <= 681 ->
  row_text 0 7 7 (run_lcd (voltage_cmds a2) (run_lcd (voltage_cmds a1) d)) =
  centi_text (volt_centi a2) ++ chars " VV".
Proof.
  intros H1 H2.
  destruct (volt_ok a1 ltac:(lia)) as (_ & S1 & _ & _ & L1).
  destruct (volt_ok a2 ltac:(lia)) as (_ & S2 & O2 & _ & L2).
  replace (a1 <=? 681) with false in L1 by (symmetry; apply Z.leb_gt; lia).
  replace (a2 <=? 681) with true in L2 by (symmetry; apply Z.leb_le; lia).
  rewrite L2 in O2. rewrite row_text_snoc, (shows_spec _ 0 7 _ 6 _ S2 L2).
  change (chars " VV") with (chars " V" ++ [86]). rewrite app_assoc. f_equal. f_equal.
  change (7 + Z.of_nat 6) with 13.
  rewrite (only_in_spec _ _ _ 13 0 O2) by (reflexivity || lia).
  pose proof (shows_spec _ 0 7 _ 7 d S1 L1) as E.
  rewrite row_text_snoc in E. change (chars " V") with ([32] ++ [86]) in E.
  rewrite app_assoc in E. apply app_inj_tail in E as [_ E]. exact E.
Qed.

Lemma voltage_stale_unit_below_10V_witness :
  682 <= 1000 <= 1023 /\ 0 <= 681 <= 681 /\
  row_text 0 7 7 (run_lcd (voltage_cmds 681) (run_lcd (voltage_cmds 1000) blank_lcd)) =
  centi_text (volt_centi 681) ++ chars " VV".
Proof. split; [lia|]. split; [lia|]. apply voltage_stale_unit_below_10V; lia. Defined.

(** Temperature decoding: for all scratchpad bytes, [raw] is the two's
    complement value of [hi:lo], and [celsius] is within one degree of
    [raw / 16] degrees ([raw - 15 <= 16 * celsius <= raw + 14]); it is the
    floor for nonnegative readings and exact for whole degrees. *)
Theorem temp_celsius_decoding (lo hi : Z) :
  0 <= lo < 256 -> 0 <= hi < 256 ->
  temp_raw lo hi = (if hi <? 128 then 256 * hi + lo else 256 * hi + lo - 65536) /\
  temp_raw lo hi - 15 <= 16 * celsius_of lo hi <= temp_raw lo hi + 14 /\
  (0 <= temp_raw lo hi -> celsius_of lo hi = temp_raw lo hi / 16) /\
  (temp_raw lo hi mod 16 = 0 -> 16 * celsius_of lo hi = temp_raw lo hi).
Proof.
  intros Hlo Hhi. pose proof (temp_ok lo hi Hlo Hhi) as C. unfold temp_check in C.
  destruct (bytes_split lo hi Hlo) as [E1 E2]. rewrite E1, E2 in C.
  repeat match goal with C : _ && _ = true |- _ => apply andb_prop in C as [C ?] end.
  repeat match goal with
         | H : (_ =? _) = true |- _ => apply Z.eqb_eq in H
         | H : (_ <=? _) = true |- _ => apply Z.leb_le in H
         end.
  split; [assumption|]. split; [lia|]. split.
  - intro P. match goal with H : implb (0 <=? _) _ = true |- _ => rename H into I end.
    apply Z.leb_le in P. rewrite P in I. apply Z.eqb_eq. exact I.
  - intro P. match goal with H : implb (_ mod 16 =? 0) _ = true |- _ => rename H into I end.
    apply Z.eqb_eq in P. rewrite P in I. apply Z.eqb_eq. exact I.
Qed.

Lemma temp_celsius_decoding_witness :
  0 <= 0x6F < 256 /\ 0 <= 0xFC < 256 /\
  temp_raw 0x6F 0xFC = (if 0xFC <? 128 then 256 * 0xFC + 0x6F else 256 * 0xFC + 0x6F - 65536) /\
  temp_raw 0x6F 0xFC - 15 <= 16 * celsius_of 0x6F 0xFC <= temp_raw 0x6F 0xFC + 14 /\
  (0 <= temp_raw 0x6F 0xFC -> celsius_of 0x6F 0xFC = temp_raw 0x6F 0xFC / 16) /\
  (temp_raw 0x6F 0xFC mod 16 = 0 -> 16 * celsius_of 0x6F 0xFC = temp_raw 0x6F 0xFC).
Proof. split; [lia|]. split; [lia|]. apply temp_celsius_decoding; lia. Defined.

(** Temperature field: a CRC mismatch leaves the display as it was; with a
    matching CRC and a reading of -99 degrees or more (the DS18B20 range
    is -55..125), columns 0-5 of row 0 show the value, the degree sign and
    "C", padded with blanks, and no other cell changes. *)
Theorem temp_field (lo hi : Z) (d : lcd) :
  0 <= lo < 256 -> 0 <= hi < 256 ->
  run_lcd (temp_cmds false lo hi) d = d /\
  (-99 <= celsius_of lo hi ->
   row_text 0 0 6 (run_lcd (temp_cmds true lo hi) d) =
     pad_right 6 (dec (celsius_of lo hi) ++ [223] ++ chars "C") /\
   (forall col row, 0 <= col < 20 -> 0 <= row < 4 -> in_field [(0, 0, 6)] col row = false ->
    cell col row (run_lcd (temp_cmds true lo hi) d) = cell col row d)).
Proof.
  intros Hlo Hhi. split; [reflexivity|]. intro Hc.
  destruct (temp_show_ok lo hi Hlo Hhi Hc) as (S & L & O). split.
  - apply shows_spec; assumption.
  - intros col row Hcol Hrow Hf. apply (only_in_spec _ _ _ _ _ O Hcol Hrow Hf).
Qed.

Lemma temp_field_witness :
  0 <= 0x50 < 256 /\ 0 <= 0x05 < 256 /\
  run_lcd (temp_cmds false 0x50 0x05) blank_lcd = blank_lcd /\
  (-99 <= celsius_of 0x50 0x05 ->
   row_text 0 0 6 (run_lcd (temp_cmds true 0x50 0x05) blank_lcd) =
     pad_right 6 (dec (celsius_of 0x50 0x05) ++ [223] ++ chars "C") /\
   (forall col row, 0 <= col < 20 -> 0 <= row < 4 -> in_field [(0, 0, 6)] col row = false ->
    cell col row (run_lcd (temp_cmds true 0x50 0x05) blank_lcd) = cell col row blank_lcd)).
Proof. split; [lia|]. split; [lia|]. apply temp_field; lia. Defined.

(** Clock decoding: for the DS3231 registers of a valid time in 24-hour
    mode, minutes decode to themselves and hours to the hour plus one, so
    the hours shown run from 1 to 24 (23 h shows as 24, never 0). *)
Theorem rtc_bcd_decoding (m h : Z) :
  0 <= m <= 59 -> 0 <= h <= 23 ->
  bcd_minutes (to_bcd m) = m /\ bcd_hours (to_bcd h) = h + 1 /\ 1 <= bcd_hours (to_bcd h) <= 24.
Proof.
  intros Hm Hh. pose proof (rtc_ok m h Hm Hh) as C. unfold rtc_check in C.
  replace ((60 * h + m) mod 60) with m in C by (Z.div_mod_to_equations; lia).
  replace ((60 * h + m) / 60) with h in C by (Z.div_mod_to_equations; lia).
  apply andb_prop in C as [C _]. apply andb_prop in C as [C _]. apply andb_prop in C as [C1 C2].
  apply Z.eqb_eq in C1, C2. split; [exact C1|]. split; [exact C2 | lia].
Qed.

Lemma rtc_bcd_decoding_witness :
  0 <= 7 <= 59 /\ 0 <= 23 <= 23 /\
  bcd_minutes (to_bcd 7) = 7 /\ bcd_hours (to_bcd 23) = 23 + 1 /\
  1 <= bcd_hours (to_bcd 23) <= 24.
Proof. split; [lia|]. split; [lia|]. apply rtc_bcd_decoding; lia. Defined.

(** Clock field: when the DS3231 returns its three registers for a valid
    time, columns 15-19 of row 0 read "HH:MM" with both numbers on two
    digits (zero-padded) and the hour one ahead, and no other cell changes. *)
Theorem rtc_clock_field (s m h : Z) (d : lcd) :
  0 <= m <= 59 -> 0 <= h <= 23 ->
  row_text 0 15 5 (run_lcd (rtc_cmds [s; to_bcd m; to_bcd h]) d) =
    two_digits (h + 1) ++ chars ":" ++ two_digits m /\
  (forall col row, 0 <= col < 20 -> 0 <= row < 4 -> in_field [(0, 15, 5)] col row = false ->
   cell col row (run_lcd (rtc_cmds [s; to_bcd m; to_bcd h]) d) = cell col row d).
Proof.
  intros Hm Hh. rewrite rtc_cmds_seconds.
  pose proof (rtc_ok m h Hm Hh) as C. unfold rtc_check in C.
  replace ((60 * h + m) mod 60) with m in C by (Z.div_mod_to_equations; lia).
  replace ((60 * h + m) / 60) with h in C by (Z.div_mod_to_equations; lia).
  apply andb_prop in C as [C O]. apply andb_prop in C as [_ S]. split.
  - apply shows_spec; [exact S | reflexivity].
  - intros col row Hcol Hrow Hf. apply (only_in_spec _ _ _ _ _ O Hcol Hrow Hf).
Qed.

Lemma rtc_clock_field_witness :
  0 <= 7 <= 59 /\ 0 <= 23 <= 23 /\
  row_text 0 15 5 (run_lcd (rtc_cmds [0; to_bcd 7; to_bcd 23]) blank_lcd) =
    two_digits (23 + 1) ++ chars ":" ++ two_digits 7 /\
  (forall col row, 0 <= col < 20 -> 0 <= row < 4 -> in_field [(0, 15, 5)] col row = false ->
   cell col row (run_lcd (rtc_cmds [0; to_bcd 7; to_bcd 23]) blank_lcd) = cell col row blank_lcd).
Proof. split; [lia|]. split; [lia|]. apply rtc_clock_field; lia. Defined.

(** RPM value: pulse widths of 2..32767 us give [60000 / width], between 1
    and 30000; a width of 1 us overflows the [int] result to -5536. *)
Theorem rpm_value_range (w : Z) :
  2 <= w <= 32767 ->
  rpm w = Some (60000 / w) /\ 1 <= 60000 / w <= 30000 /\ rpm 1 = Some (-5536).
Proof.
  intro H. split; [apply rpm_in_range; exact H|]. split; [|reflexivity]. split.
  - apply Z.div_le_lower_bound; lia.
  - apply Z.div_le_upper_bound; lia.
Qed.

Lemma rpm_value_range_witness :
  2 <= 1000 <= 32767 /\
  rpm 1000 = Some (60000 / 1000) /\ 1 <= 60000 / 1000 <= 30000 /\ rpm 1 = Some (-5536).
Proof. split; [lia|]. apply rpm_value_range. lia. Defined.

(** RPM field: whenever the division is defined, [rpm()] shows the value
    left-aligned in columns 15-19 of row 2, padded with blanks, and changes
    no other cell; the exception is a 16-bit width of -6..-2 (widths
    65530..65534 us), whose six-character result (-10000 .. -30000) puts its
    last "0" at column 0 of row 1, past the end of row 2. *)
Theorem rpm_field (pulse RPM : Z) (d : lcd) :
  rpm pulse = Some RPM ->
  (~ (-6 <= to_int16 pulse <= -2) ->
   row_text 2 15 5 (run_lcd (rpm_show RPM) d) = pad_right 5 (dec RPM) /\
   (forall col row, 0 <= col < 20 -> 0 <= row < 4 -> in_field [(2, 15, 5)] col row = false ->
    cell col row (run_lcd (rpm_show RPM) d) = cell col row d)) /\
  (-6 <= to_int16 pulse <= -2 -> cell 0 1 (run_lcd (rpm_show RPM) d) = 48).
Proof.
  intro E. pose proof (rpm_check_ok pulse) as C. unfold rpm_check in C. rewrite E in C.
  split.
  - intro N. replace ((-6 <=? to_int16 pulse) && (to_int16 pulse <=? -2)) with false in C
      by (symmetry; apply not_true_iff_false; intro B;
          apply andb_prop in B as [B1 B2]; apply Z.leb_le in B1, B2; lia).
    apply andb_prop in C as [C O]. apply andb_prop in C as [S L]. apply Nat.eqb_eq in L.
    split; [apply shows_spec; assumption|].
    intros col row Hcol Hrow Hf. apply (only_in_spec _ _ _ _ _ O Hcol Hrow Hf).
  - intros [B1 B2]. apply Z.leb_le in B1, B2. rewrite B1, B2 in C.
    pose proof (shows_spec _ 1 0 (chars "0") 1 d C eq_refl) as S.
    cbn [row_text] in S. injection S as S. exact S.
Qed.

Lemma rpm_field_witness :
  rpm 65534 = Some (-30000) /\
  (~ (-6 <= to_int16 65534 <= -2) ->
   row_text 2 15 5 (run_lcd (rpm_show (-30000)) blank_lcd) = pad_right 5 (dec (-30000)) /\
   (forall col row, 0 <= col < 20 -> 0 <= row < 4 -> in_field [(2, 15, 5)] col row = false ->
    cell col row (run_lcd (rpm_show (-30000)) blank_lcd) = cell col row blank_lcd)) /\
  (-6 <= to_int16 65534 <= -2 -> cell 0 1 (run_lcd (rpm_show (-30000)) blank_lcd) = 48).
Proof. split; [reflexivity|]. apply rpm_field. reflexivity. Defined.

(** Task timing: with [unsigned long] subtraction, each group of tasks runs
    exactly when its real elapsed time has reached its period (1000 ms for
    [temp]/[voltage]/[rpm], 15000 ms for [rtc]/[fuel]), also when
    [millis()] wraps around 2^32 in between, and only a group that runs
    restarts its time stamp. *)
Theorem loop_timers_rollover (time_now temper_time rtc_time kt kr : Z) :
  0 <= temper_time < 2 ^ 32 -> 0 <= rtc_time < 2 ^ 32 ->
  0 <= kt < 2 ^ 32 -> 0 <= kr < 2 ^ 32 ->
  time_now = (temper_time + kt) mod 2 ^ 32 -> time_now = (rtc_time + kr) mod 2 ^ 32 ->
  loop_timers time_now temper_time rtc_time =
    (1000 <=? kt, 15000 <=? kr,
     if 1000 <=? kt then time_now else temper_time,
     if 15000 <=? kr then time_now else rtc_time).
Proof.
  intros Ht Hr Hkt Hkr Et Er. unfold loop_timers, elapsed.
  assert (A : forall t k, 0 <= k < 2 ^ 32 -> ((t + k) mod 2 ^ 32 - t) mod 2 ^ 32 = k).
  { intros t k Hk. rewrite Zminus_mod_idemp_l.
    replace (t + k - t) with k by lia. apply Z.mod_small. exact Hk. }
  replace ((time_now - temper_time) mod 2 ^ 32) with kt by (rewrite Et; symmetry; apply A; exact Hkt).
  replace ((time_now - rtc_time) mod 2 ^ 32) with kr by (rewrite Er; symmetry; apply A; exact Hkr).
  reflexivity.
Qed.

Lemma loop_timers_rollover_witness :
  0 <= 2 ^ 32 - 500 < 2 ^ 32 /\ 0 <= 2 ^ 32 - 20000 < 2 ^ 32 /\
  0 <= 1200 < 2 ^ 32 /\ 0 <= 20700 < 2 ^ 32 /\
  700 = (2 ^ 32 - 500 + 1200) mod 2 ^ 32 /\ 700 = (2 ^ 32 - 20000 + 20700) mod 2 ^ 32 /\
  loop_timers 700 (2 ^ 32 - 500) (2 ^ 32 - 20000) =
    (1000 <=? 1200, 15000 <=? 20700,
     if 1000 <=? 1200 then 700 else 2 ^ 32 - 500,
     if 15000 <=? 20700 then 700 else 2 ^ 32 - 20000).
Proof.
  split; [lia|]. split; [lia|]. split; [lia|]. split; [lia|].
  split; [reflexivity|]. split; [reflexivity|].
  apply loop_timers_rollover; (lia || reflexivity).
Defined.

(** Distance guard: [countWheel * wheelCircum >= distance] holds exactly
    when the wheel counter is at least 262 (262 * 1.915 m = 501.7 m). *)
Theorem distance_guard_threshold (c : counters) :
  0 <= countWheel c < 65536 -> distance_reached c = (262 <=? countWheel c).
Proof.
  intro H. apply Bool.eqb_prop.
  apply (all_pow2_spec _ 16 0 guard_all). change (0 + 2 ^ Z.of_nat 16) with 65536. lia.
Qed.

Lemma distance_guard_threshold_witness :
  0 <= countWheel {| countFlow1 := 0; countFlow2 := 0; countWheel := 262 |} < 65536 /\
  distance_reached {| countFlow1 := 0; countFlow2 := 0; countWheel := 262 |} =
    (262 <=? countWheel {| countFlow1 := 0; countFlow2 := 0; countWheel := 262 |}).
Proof. split; [simpl; lia|]. apply distance_guard_threshold. simpl. lia. Defined.

(** Keeps a text of a row across commands that write elsewhere. *)
Ltac keep_text O :=
  rewrite (row_text_frame _ _ _ _ _ _ O);
  [| solve [reflexivity | lia
           | match goal with L : length ?t = (if ?c then _ else _) |- _ =>
               rewrite L; destruct c; reflexivity end] | lia | lia | lia].

(** Screen after [setup()]: for a valid clock time, a matching temperature
    CRC with a reading of at least -99 degrees, any voltage reading, a fuel
    reading of 0..344 (at most 100 %) and a pulse width of 2..32767 us, the
    five fields of [rtc], [temp], [voltage], [fuel] and [rpm] do not
    overwrite each other: each shows the text of its own function. *)
Theorem setup_screen_layout (s m h lo hi analogV analogF w : Z) (d : lcd) :
  0 <= m <= 59 -> 0 <= h <= 23 ->
  0 <= lo < 256 -> 0 <= hi < 256 -> -99 <= celsius_of lo hi ->
  0 <= analogV <= 1023 -> 0 <= analogF <= 344 -> 2 <= w <= 32767 ->
  exists cs,
    setup_cmds [s; to_bcd m; to_bcd h] true lo hi analogV analogF w = Some cs /\
    row_text 0 0 6 (run_lcd cs d) = pad_right 6 (dec (celsius_of lo hi) ++ [223] ++ chars "C") /\
    row_text 0 7 (length (centi_text (volt_centi analogV) ++ chars " V")) (run_lcd cs d) =
      centi_text (volt_centi analogV) ++ chars " V" /\
    row_text 0 15 5 (run_lcd cs d) = two_digits (h + 1) ++ chars ":" ++ two_digits m /\
    row_text 1 0 11 (run_lcd cs d) = bar_text (fuelPerc_of analogF) /\
    row_text 1 16 4 (run_lcd cs d) = pad_left 4 (dec (fuelPerc_of analogF) ++ chars "%") /\
    row_text 2 15 5 (run_lcd cs d) = pad_right 5 (dec (60000 / w)).
Proof.
  intros Hm Hh Hlo Hhi Hc HV HF Hw.
  (* clock *)
  pose proof (rtc_ok m h Hm Hh) as C. unfold rtc_check in C.
  replace ((60 * h + m) mod 60) with m in C by (Z.div_mod_to_equations; lia).
  replace ((60 * h + m) / 60) with h in C by (Z.div_mod_to_equations; lia).
  apply andb_prop in C as [C Ork]. apply andb_prop in C as [_ Srk].
  (* temperature *)
  destruct (temp_show_ok lo hi Hlo Hhi Hc) as (Stp & Ltp & Otp).
  (* voltage *)
  destruct (volt_ok analogV HV) as (_ & Svt & _ & Ovt & Lvt).
  (* fuel *)
  assert (Hp : 0 <= fuelPerc_of analogF <= 100)
    by (rewrite fuelPerc_formula by lia; Z.div_mod_to_equations; lia).
  pose proof (forallb_zrange _ _ _ fuel_pct_all (fuelPerc_of analogF) ltac:(lia)) as F.
  cbv beta in F.
  apply andb_prop in F as [F Ofl]. apply andb_prop in F as [Spc Lpc]. apply Nat.eqb_eq in Lpc.
  pose proof (forallb_zrange _ _ _ fuel_bar_all (fuelPerc_of analogF) ltac:(lia)) as Sbr.
  (* rpm *)
  pose proof (rpm_in_range w Hw) as Hr.
  pose proof (rpm_check_ok w) as R. unfold rpm_check in R. rewrite Hr in R.
  replace (to_int16 w) with w in R by (symmetry; apply to_int16_small; lia).
  replace ((-6 <=? w) && (w <=? -2)) with false in R
    by (symmetry; apply andb_false_iff; right; apply Z.leb_gt; lia).
  apply andb_prop in R as [R Orp]. apply andb_prop in R as [Srp Lrp]. apply Nat.eqb_eq in Lrp.
  exists (rtc_cmds [s; to_bcd m; to_bcd h] ++ temp_cmds true lo hi ++ voltage_cmds analogV
          ++ fuel_cmds (fuelPerc_of analogF) ++ rpm_show (60000 / w)).
  split; [unfold setup_cmds, rpm_cmds; rewrite Hr; reflexivity|].
  rewrite rtc_cmds_seconds. rewrite !run_lcd_app.
  assert (Bv : (length (centi_text (volt_centi analogV) ++ chars " V") <= 7)%nat)
    by (rewrite Lvt; destruct (analogV <=? 681); lia).
  repeat split.
  - keep_text Orp. keep_text Ofl. keep_text Ovt. apply shows_spec; assumption.
  - keep_text Orp. keep_text Ofl. apply shows_spec; [assumption | reflexivity].
  - keep_text Orp. keep_text Ofl. keep_text Ovt. keep_text Otp. apply shows_spec; [assumption | reflexivity].
  - keep_text Orp. apply shows_spec; [assumption|]. unfold bar_text. rewrite length_app, length_map.
    reflexivity.
  - keep_text Orp. apply shows_spec; assumption.
  - apply shows_spec; assumption.
Qed.

Lemma setup_screen_layout_witness :
  0 <= 7 <= 59 /\ 0 <= 23 <= 23 /\ 0 <= 0x50 < 256 /\ 0 <= 0x05 < 256 /\
  -99 <= celsius_of 0x50 0x05 /\ 0 <= 900 <= 1023 /\ 0 <= 200 <= 344 /\ 2 <= 20000 <= 32767 /\
  exists cs,
    setup_cmds [0; to_bcd 7; to_bcd 23] true 0x50 0x05 900 200 20000 = Some cs /\
    row_text 0 0 6 (run_lcd cs blank_lcd) =
      pad_right 6 (dec (celsius_of 0x50 0x05) ++ [223] ++ chars "C") /\
    row_text 0 7 (length (centi_text (volt_centi 900) ++ chars " V")) (run_lcd cs blank_lcd) =
      centi_text (volt_centi 900) ++ chars " V" /\
    row_text 0 15 5 (run_lcd cs blank_lcd) = two_digits (23 + 1) ++ chars ":" ++ two_digits 7 /\
    row_text 1 0 11 (run_lcd cs blank_lcd) = bar_text (fuelPerc_of 200) /\
    row_text 1 16 4 (run_lcd cs blank_lcd) = pad_left 4 (dec (fuelPerc_of 200) ++ chars "%") /\
    row_text 2 15 5 (run_lcd cs blank_lcd) = pad_right 5 (dec (60000 / 20000)).
Proof.
  do 4 (split; [lia|]). split; [vm_compute; discriminate|]. do 3 (split; [lia|]).
  apply setup_screen_layout; (lia || (vm_compute; discriminate)).
Defined.
